(** * WorkLog: the session store (database.py) and the gateway (main.py)

    A shallow embedding of the two Python modules.  The SQLite table is a
    list of rows kept in rowid order together with the AUTOINCREMENT
    counter; the notification queue file is its text content; code that can
    raise returns a [result].

    Numbers.  A Python [int] is a [Z]; a value bound to a SQLite parameter
    has to fit a signed 64-bit INTEGER, or the sqlite3 module raises
    OverflowError before the statement runs.  A finite Python [float] or
    SQLite REAL is the rational it denotes ([Q]), so comparisons are exact;
    NaN and the infinities are not values of the model.  The quotient
    [manual_estimate / actual_hours] is rounded to the nearest double and
    overflows as the division does; SQLite's arithmetic on REAL (the
    subtraction, SUM and ROUND of the statistics query) is a parameter with
    the laws the proofs use; the products [actual_hours * 60] and
    [time.time() * 1000] are taken without rounding error. *)

From Stdlib Require Import ZArith QArith Qabs Qround Qminmax String Ascii List Bool Lia.
From Stdlib Require Import Sorted Permutation DecimalString Lqa.
Import ListNotations.

Local Set Warnings "-register-all".
Local Open Scope string_scope.
Local Open Scope Z_scope.

(** ** Python values and exceptions *)

Inductive pyvalue : Type :=
| PyNone
| PyBool (b : bool)
| PyInt (z : Z)
| PyFloat (q : Q)
| PyStr (s : string)
| PyList (l : list pyvalue)
| PyDict (d : list (string * pyvalue)).

(** A [dict] with string keys, in insertion order. *)
Definition pydict : Type := list (string * pyvalue).

Fixpoint dict_get (k : string) (d : pydict) : option pyvalue :=
  match d with
  | [] => None
  | (k', v) :: d' => if String.eqb k k' then Some v else dict_get k d'
  end.

Inductive exn : Type :=
| HTTPException (status_code : Z) (detail : string)
| ZeroDivisionError
| ValueError
| OverflowError
| OSError
| OperationalError.

Inductive result (A : Type) : Type :=
| Ok (a : A)
| Raise (e : exn).
Arguments Ok {A} a.
Arguments Raise {A} e.

Definition bind {A B : Type} (m : result A) (k : A -> result B) : result B :=
  match m with
  | Ok a => k a
  | Raise e => Raise e
  end.

Notation "x <- m ;; k" := (bind m (fun x => k))
  (at level 61, m at next level, right associativity).

(** What the embedding takes from the Python runtime without fixing it:
    [json.dumps] and the text of a float in an f-string. *)
Class PyRuntime : Type := {
  json_dumps : pyvalue -> string;
  float_str : Q -> string
}.

(** SQLite's arithmetic on REAL values, as the statistics query uses it:
    the subtraction [x - y], the aggregate SUM over the values of the rows
    in scan order, and ROUND(x, 2). *)
Class SqliteReal : Type := {
  real_sub : Q -> Q -> Q;
  real_sum : list Q -> Q;
  real_round2 : Q -> Q
}.

(** What the proofs use of that arithmetic: a difference is negative when
    the first operand is the smaller one; a sum depends on the values only,
    is not changed by a term that is zero, is not negative when no term is,
    and does not go down when a term that is not negative is added at the
    end; rounding is monotone and keeps the sign. *)
Class SqliteRealLaws (sq : SqliteReal) : Prop := {
  real_sub_negative : forall x y : Q, (x < y)%Q -> (real_sub x y < 0)%Q;
  real_sum_values : forall l l' : list Q,
    Forall2 Qeq l l' -> (real_sum l == real_sum l')%Q;
  real_sum_skip_zero : forall (l1 l2 : list Q) (z : Q),
    (z == 0)%Q -> (real_sum (l1 ++ z :: l2) == real_sum (l1 ++ l2))%Q;
  real_sum_nonneg : forall l : list Q,
    Forall (fun x => 0 <= x)%Q l -> (0 <= real_sum l)%Q;
  real_sum_grows : forall (l : list Q) (x : Q),
    Forall (fun y => 0 <= y)%Q l -> (0 <= x)%Q ->
    (real_sum l <= real_sum (l ++ [x]))%Q;
  real_round2_monotone : forall x y : Q,
    (x <= y)%Q -> (real_round2 x <= real_round2 y)%Q;
  real_round2_nonneg : forall x : Q, (0 <= x)%Q -> (0 <= real_round2 x)%Q
}.

Module Py.

(** Truth value testing: [None], zero and empty containers are false. *)
Definition truthy_int (z : Z) : bool := negb (z =? 0).
Definition truthy_float (q : Q) : bool := negb (Qnum q =? 0).
Definition truthy_str (s : string) : bool :=
  match s with EmptyString => false | String _ _ => true end.
Definition truthy_dict (d : pydict) : bool :=
  match d with [] => false | _ :: _ => true end.

(** [x or y] for an optional value: [x] when it is present and true, else [y]
    (the right operand is passed already evaluated where it cannot raise). *)
Definition or_int (x : option Z) (y : Z) : Z :=
  match x with
  | Some z => if truthy_int z then z else y
  | None => y
  end.

Definition or_float (x : option Q) (y : Q) : Q :=
  match x with
  | Some q => if truthy_float q then q else y
  | None => y
  end.

Definition or_str (x : option string) (y : string) : string :=
  match x with
  | Some s => if truthy_str s then s else y
  | None => y
  end.

(** Comparisons of floats. *)
Definition float_ge (x y : Q) : bool := Qle_bool y x.
Definition float_gt (x y : Q) : bool := negb (Qle_bool x y).
Definition float_lt (x y : Q) : bool := negb (Qle_bool y x).

(** [int(x)] of a float truncates toward zero. *)
Definition int_of_float (q : Q) : Z := Z.quot (Qnum q) (Zpos (Qden q)).

(** [round(x)]: to the nearest integer, a tie goes to the even one. *)
Definition round (q : Q) : Z :=
  let f := Qfloor q in
  match (q - inject_Z f ?= 1 # 2)%Q with
  | Lt => f
  | Gt => f + 1
  | Eq => if Z.even f then f else f + 1
  end.

(** [round(x, 1)]. *)
Definition round1 (q : Q) : Q := (inject_Z (round (q * 10)) / 10)%Q.

(** Powers of two. *)
Definition pow2 (e : Z) : Q :=
  if 0 <=? e then inject_Z (2 ^ e) else 1 # Z.to_pos (2 ^ (- e)).

(** The exponent [e] with [2 ^ e <= |q| < 2 ^ (e + 1)], for [q] other
    than zero. *)
Definition exponent (q : Q) : Z :=
  let e := Z.log2 (Z.abs (Qnum q)) - Z.log2 (Zpos (Qden q)) in
  if Qle_bool (pow2 e) (Qabs q) then e else e - 1.

(** The double nearest to a real number, a tie going to the even
    significand: 53 bits above 2 ^ -1022, multiples of 2 ^ -1074 below. *)
Definition nearest_double (q : Q) : Q :=
  if Qnum q =? 0 then 0%Q
  else
    let ulp := pow2 (Z.max (exponent q) (- 1022) - 52) in
    (inject_Z (round (q / ulp)) * ulp)%Q.

(** From here on the nearest double is an infinity: the largest finite
    double plus half a unit in its last place. *)
Definition overflow_threshold : Q := inject_Z (2 ^ 1024 - 2 ^ 970).

(** The float a division returns. *)
Inductive quotient : Type :=
| Finite (q : Q)
| Infinite.

(** [x / y] on floats: division by zero raises, a quotient too large for
    a double is an infinity. *)
Definition truediv (x y : Q) : result quotient :=
  if (Qnum y =? 0) then Raise ZeroDivisionError
  else if Qle_bool overflow_threshold (Qabs (x / y)) then Ok Infinite
  else Ok (Finite (nearest_double (x / y))).

(** [round(x)] of that float: an infinity has no integer. *)
Definition round_quotient (x : quotient) : result Z :=
  match x with
  | Finite q => Ok (round q)
  | Infinite => Raise OverflowError
  end.

(** [str] of an int. *)
Definition int_str (z : Z) : string := NilZero.string_of_int (Z.to_int z).

End Py.

(** ** The UTC calendar date of an epoch-milliseconds value

    [datetime.fromtimestamp(ts / 1000, tz=timezone.utc).strftime("%Y-%m-%d")].
    [datetime] covers the years 1 to 9999.  Within them the float [ts / 1000]
    is less than a millisecond away from the quotient, so the day is [ts]
    divided by 86400000, rounded down.  Outside them the call raises:
    OverflowError when the float does not fit the platform's 64-bit
    [time_t], OSError when [gmtime] cannot hold the year in a C [int],
    ValueError otherwise. *)
Module Calendar.

Definition ms_per_day : Z := 86400000.

(** Year, month and day of the proleptic Gregorian calendar from the number
    of days since 1970-01-01. *)
Definition civil_from_days (days : Z) : Z * Z * Z :=
  let z := days + 719468 in
  let era := z / 146097 in
  let doe := z - era * 146097 in
  let yoe := (doe - doe / 1460 + doe / 36524 - doe / 146096) / 365 in
  let doy := doe - (365 * yoe + yoe / 4 - yoe / 100) in
  let mp := (5 * doy + 2) / 153 in
  let d := doy - (153 * mp + 2) / 5 + 1 in
  let m := if mp <? 10 then mp + 3 else mp - 9 in
  let y := yoe + era * 400 + (if m <=? 2 then 1 else 0) in
  (y, m, d).

Fixpoint zeros (n : nat) : string :=
  match n with
  | O => ""
  | S n' => "0" ++ zeros n'
  end.

Definition zero_pad (width : nat) (s : string) : string :=
  zeros (width - String.length s) ++ s.

(** ["%Y-%m-%d"]: the C library writes the year without padding, the
    month and the day with two digits. *)
Definition strftime_ymd (ymd : Z * Z * Z) : string :=
  let '(y, m, d) := ymd in
  Py.int_str y ++ "-" ++ zero_pad 2 (Py.int_str m)
    ++ "-" ++ zero_pad 2 (Py.int_str d).

(** Day numbers of 0001-01-01 and 9999-12-31. *)
Definition min_day : Z := -719162.
Definition max_day : Z := 2932896.

(** The exception for a timestamp outside the years 1 to 9999, read off
    the float [ts / 1000]. *)
Definition fromtimestamp_error (ts : Z) : exn :=
  let seconds := Py.nearest_double (ts # 1000) in
  if Qle_bool (inject_Z (- 2 ^ 63)) seconds
     && Qle_bool seconds (inject_Z (2 ^ 63))
  then
    let '(y, _, _) := civil_from_days (Qfloor seconds / 86400) in
    if (- 2 ^ 31 <=? y - 1900) && (y - 1900 <=? 2 ^ 31 - 1)
    then ValueError
    else OSError
  else OverflowError.

Definition utc_date (ts : Z) : result string :=
  let days := ts / ms_per_day in
  if (min_day <=? days) && (days <=? max_day)
  then Ok (strftime_ymd (civil_from_days days))
  else Raise (fromtimestamp_error ts).

End Calendar.

(** ** database.py *)

(** One row of the [sessions] table, a field per column. *)
Module Row.
Record t : Type := mk {
  id : Z;
  project : string;
  description : option string;
  task_type : string;
  actual_hours : Q;
  manual_estimate : option Q;
  timestamp : Z;
  date : string;
  metadata : option string;
  created_at : string
}.
End Row.

(** What a call reads from its surroundings: [time.time()] and the text
    SQLite's [datetime('now')] gives for the [created_at] default. *)
Record clock : Type := {
  time_time : Q;
  datetime_now : string
}.

(** The table in rowid order, and the largest rowid ever handed out
    (AUTOINCREMENT keeps it in [sqlite_sequence]). *)
Record database : Type := {
  sessions : list Row.t;
  sqlite_sequence : Z
}.

Module Sql.

(** [init_db] on a fresh file. *)
Definition empty : database := {| sessions := []; sqlite_sequence := 0 |}.

(** The sqlite3 module binds a Python int only if it fits a signed 64-bit
    INTEGER; rowids are such integers too. *)
Definition fits_int64 (z : Z) : bool :=
  (- 2 ^ 63 <=? z) && (z <=? 2 ^ 63 - 1).

(** Stable insertion for ORDER BY timestamp DESC: the new row passes only
    rows with a strictly larger timestamp. *)
Fixpoint insert_desc (r : Row.t) (l : list Row.t) : list Row.t :=
  match l with
  | [] => [r]
  | x :: l' =>
      if Row.timestamp r <? Row.timestamp x
      then x :: insert_desc r l'
      else r :: x :: l'
  end.

(** ORDER BY timestamp DESC over the table scan.  The query names no second
    key; SQLite then leaves rows of equal timestamp in scan order. *)
Fixpoint order_by_timestamp_desc (l : list Row.t) : list Row.t :=
  match l with
  | [] => []
  | r :: l' => insert_desc r (order_by_timestamp_desc l')
  end.

(** LIMIT n, for a bound 64-bit n: a negative n puts no bound on the
    number of rows. *)
Definition limit_rows {A : Type} (n : Z) (l : list A) : list A :=
  if n <? 0 then l else firstn (Z.to_nat n) l.

(** The scalar MAX(x, y). *)
Definition max2 (x y : Q) : Q := if Qle_bool x y then y else x.

(** SUM over the rows of a per-row REAL expression; NULL on no rows. *)
Definition sum {sq : SqliteReal} (f : Row.t -> Q) (l : list Row.t) : option Q :=
  match l with
  | [] => None
  | _ :: _ => Some (real_sum (map f l))
  end.

(** DELETE FROM sessions WHERE id = n, for a bound 64-bit n; the
    AUTOINCREMENT counter stays. *)
Definition delete_where_id (n : Z) (db : database) : database :=
  {| sessions := filter (fun r => negb (Row.id r =? n)) (sessions db);
     sqlite_sequence := sqlite_sequence db |}.

(** COUNT(DISTINCT e) for a text expression. *)
Fixpoint distinct (l : list string) : list string :=
  match l with
  | [] => []
  | s :: l' =>
      if existsb (String.eqb s) l' then distinct l' else s :: distinct l'
  end.

End Sql.

Module Database.

(** [dict(r)] for a row of [sessions]. *)
Definition opt_str (o : option string) : pyvalue :=
  match o with Some s => PyStr s | None => PyNone end.

Definition opt_float (o : option Q) : pyvalue :=
  match o with Some q => PyFloat q | None => PyNone end.

Definition dict_of_row (r : Row.t) : pydict :=
  [ ("id", PyInt (Row.id r));
    ("project", PyStr (Row.project r));
    ("description", opt_str (Row.description r));
    ("task_type", PyStr (Row.task_type r));
    ("actual_hours", PyFloat (Row.actual_hours r));
    ("manual_estimate", opt_float (Row.manual_estimate r));
    ("timestamp", PyInt (Row.timestamp r));
    ("date", PyStr (Row.date r));
    ("metadata", opt_str (Row.metadata r));
    ("created_at", PyStr (Row.created_at r)) ].

Section WithRuntime.
Context {rt : PyRuntime}.

(** [save_session]: returns the new row's id and the table after the
    insert; when it raises nothing has been written.  The INSERT binds the
    timestamp, which has to fit 64 bits, and takes the rowid after the
    largest one ever used, which SQLite refuses (SQLITE_FULL) once the
    64-bit rowids are used up. *)
Definition save_session (c : clock)
    (project : string) (description : option string) (task_type : string)
    (actual_hours : Q) (manual_estimate : option Q)
    (timestamp : option Z) (date : option string) (metadata : option pydict)
    (db : database) : result (Z * database) :=
  let ts := Py.or_int timestamp (Py.int_of_float (time_time c * 1000)) in
  dt <- match date with
        | Some d => if Py.truthy_str d then Ok d else Calendar.utc_date ts
        | None => Calendar.utc_date ts
        end ;;
  let meta_str :=
    match metadata with
    | Some m => if Py.truthy_dict m then Some (json_dumps (PyDict m)) else None
    | None => None
    end in
  if Sql.fits_int64 ts then
    let lastrowid := sqlite_sequence db + 1 in
    if Sql.fits_int64 lastrowid then
      let r := Row.mk lastrowid project description task_type actual_hours
                      manual_estimate ts dt meta_str (datetime_now c) in
      Ok (lastrowid,
          {| sessions := (sessions db ++ [r])%list;
             sqlite_sequence := lastrowid |})
    else Raise OperationalError
  else Raise OverflowError.

End WithRuntime.

(** The rows [get_sessions] fetches, before [dict(r)]. *)
Definition select_sessions (limit : Z) (db : database) : list Row.t :=
  Sql.limit_rows limit (Sql.order_by_timestamp_desc (sessions db)).

(** [get_sessions]: binding the limit raises when it does not fit. *)
Definition get_sessions (limit : Z) (db : database) : result (list pydict) :=
  if Sql.fits_int64 limit
  then Ok (map dict_of_row (select_sessions limit db))
  else Raise OverflowError.

Definition total_sessions (db : database) : Z :=
  Z.of_nat (length (sessions db)).

Definition project_count (db : database) : Z :=
  Z.of_nat (length (Sql.distinct (map Row.project (sessions db)))).

Section WithReals.
Context {sq : SqliteReal}.

(** The CASE expression summed for [hours_saved]. *)
Definition saved_case (r : Row.t) : Q :=
  match Row.manual_estimate r with
  | Some est => Sql.max2 0 (real_sub est (Row.actual_hours r))
  | None => 0
  end%Q.

Definition total_hours (db : database) : option Q :=
  option_map real_round2 (Sql.sum Row.actual_hours (sessions db)).

Definition hours_saved (db : database) : option Q :=
  option_map real_round2 (Sql.sum saved_case (sessions db)).

Definition get_stats (db : database) : pydict :=
  [ ("total_sessions", PyInt (total_sessions db));
    ("total_hours", opt_float (total_hours db));
    ("hours_saved", opt_float (hours_saved db));
    ("project_count", PyInt (project_count db)) ].

End WithReals.

(** [delete_session]: binding the id raises when it does not fit, and the
    table stays as it is. *)
Definition delete_session (session_id : Z) (db : database) : result database :=
  if Sql.fits_int64 session_id
  then Ok (Sql.delete_where_id session_id db)
  else Raise OverflowError.

End Database.

(** ** main.py *)

(** The request body of POST /api/log. *)
Module SessionIn.
Record t : Type := mk {
  project : string;
  description : option string;
  task_type : option string;
  actual_hours : Q;
  manual_estimate : option Q;
  timestamp : option Z;
  date : option string;
  metadata : option pydict
}.
End SessionIn.

(** The table and the content of the notification queue file. *)
Record world : Type := {
  store : database;
  notify_queue : string
}.

(** What one POST /api/log reads from its surroundings: the clock at the
    insert, [time.time()] at the notification, and whether anything in the
    [try] block of [notify_discord] raises. *)
Record env : Type := {
  save_clock : clock;
  notify_time : Q;
  queue_fault : bool
}.

Module Main.

Definition DISCORD_LOGS_CHANNEL : string := "1476717294397952071".
Definition API_KEY : string := "wl-justin-2026".

Definition should_notify (task_type : string) (actual_hours : Q)
    (manual_estimate : option Q) : bool :=
  if String.eqb task_type "scan" then true
  else if Py.float_ge actual_hours (1 # 2) then true
  else match manual_estimate with
       | Some est =>
           if Py.truthy_float est && Py.float_ge est 10 then true else false
       | None => false
       end.

Definition require_key (x_wl_key : option string) : result unit :=
  match x_wl_key with
  | Some k =>
      if String.eqb k API_KEY then Ok tt
      else Raise (HTTPException 401 "Invalid API key")
  | None => Raise (HTTPException 401 "Invalid API key")
  end.

Section WithRuntime.
Context {rt : PyRuntime}.

Definition build_notify_message (project description task_type : string)
    (actual_hours : Q) (manual_estimate : option Q) : result string :=
  let mins := Py.round1 (actual_hours * 60) in
  let time_str :=
    if Py.float_lt mins 60
    then float_str mins ++ "m"
    else float_str (Py.round1 actual_hours) ++ "h" in
  let msg :=
    "📋 **WorkLog** · `" ++ project ++ "` · "
      ++ (if Py.truthy_str description then description else task_type)
      ++ " · ⏱ " ++ time_str in
  match manual_estimate with
  | Some est =>
      if Py.truthy_float est && Py.float_gt est 0 then
        q <- Py.truediv est actual_hours ;;
        multiplier <- Py.round_quotient q ;;
        Ok (msg ++ " · **" ++ Py.int_str multiplier ++ "x faster than manual**")
      else Ok msg
  | None => Ok msg
  end.

(** [notify_discord] never raises: a fault inside its [try] leaves the
    queue as it is. *)
Definition notify_discord (e : env) (message : string) (w : world) : world :=
  if queue_fault e then w
  else
    let entry :=
      json_dumps (PyDict [ ("channel", PyStr DISCORD_LOGS_CHANNEL);
                           ("message", PyStr message);
                           ("ts", PyFloat (notify_time e)) ]) in
    {| store := store w;
       notify_queue := notify_queue w ++ entry ++ String "010" "" |}.

(** Each route returns its response, or the exception that ends the
    request, with the world as the call leaves it. *)
Definition log_session (e : env) (session : SessionIn.t)
    (x_wl_key : option string) (w : world) : result pydict * world :=
  match require_key x_wl_key with
  | Raise ex => (Raise ex, w)
  | Ok _ =>
      let task_type := Py.or_str (SessionIn.task_type session) "manual" in
      match Database.save_session (save_clock e)
              (SessionIn.project session) (SessionIn.description session)
              task_type (SessionIn.actual_hours session)
              (SessionIn.manual_estimate session) (SessionIn.timestamp session)
              (SessionIn.date session) (SessionIn.metadata session)
              (store w) with
      | Raise ex => (Raise ex, w)
      | Ok (session_id, db') =>
          let w1 := {| store := db'; notify_queue := notify_queue w |} in
          let est := Py.or_float (SessionIn.manual_estimate session) 0 in
          if should_notify task_type (SessionIn.actual_hours session) (Some est)
          then
            match build_notify_message (SessionIn.project session)
                    (Py.or_str (SessionIn.description session) "")
                    task_type (SessionIn.actual_hours session) (Some est) with
            | Raise ex => (Raise ex, w1)
            | Ok msg =>
                (Ok [("ok", PyBool true); ("id", PyInt session_id)],
                 notify_discord e msg w1)
            end
          else (Ok [("ok", PyBool true); ("id", PyInt session_id)], w1)
      end
  end.

End WithRuntime.

Definition list_sessions (limit : Z) (x_wl_key : option string) (w : world)
    : result (list pydict) * world :=
  match require_key x_wl_key with
  | Raise ex => (Raise ex, w)
  | Ok _ => (Database.get_sessions limit (store w), w)
  end.

Definition stats {sq : SqliteReal} (x_wl_key : option string) (w : world)
    : result pydict * world :=
  match require_key x_wl_key with
  | Raise ex => (Raise ex, w)
  | Ok _ => (Ok (Database.get_stats (store w)), w)
  end.

Definition remove_session (session_id : Z) (x_wl_key : option string)
    (w : world) : result pydict * world :=
  match require_key x_wl_key with
  | Raise ex => (Raise ex, w)
  | Ok _ =>
      match Database.delete_session session_id (store w) with
      | Raise ex => (Raise ex, w)
      | Ok db' =>
          (Ok [("ok", PyBool true)],
           {| store := db'; notify_queue := notify_queue w |})
      end
  end.

End Main.

(** ** A runtime to evaluate the model on concrete inputs

    A stand-in for the parameters, for examples only.  [float_str] writes a
    number with one decimal; [json_dumps] writes the layout [json.dumps]
    gives None, booleans, ints and plain ASCII strings, nested in lists and
    dicts, and writes a float as [float_str] does; the arithmetic on REAL is
    the exact one on rationals, with ROUND taking a tie away from zero. *)
Module Reference.

Definition exact_sum (l : list Q) : Q := fold_left Qplus l 0%Q.

Definition exact_round2 (x : Q) : Q :=
  if Qle_bool 0 x
  then (inject_Z (Qfloor (x * 100 + (1 # 2))) / 100)%Q
  else (- (inject_Z (Qfloor (- x * 100 + (1 # 2))) / 100))%Q.

#[export] Instance reals : SqliteReal :=
  {| real_sub := Qminus; real_sum := exact_sum; real_round2 := exact_round2 |}.

Definition one_decimal (q : Q) : string :=
  let n := Qfloor (Qabs q * 10) in
  (if Qle_bool 0 q then "" else "-")
    ++ Py.int_str (n / 10) ++ "." ++ Py.int_str (n mod 10).

Definition quoted (s : string) : string :=
  String "034" s ++ String "034" "".

Fixpoint join (sep : string) (l : list string) : string :=
  match l with
  | [] => ""
  | [s] => s
  | s :: l' => s ++ sep ++ join sep l'
  end.

Fixpoint dumps (v : pyvalue) : string :=
  match v with
  | PyNone => "null"
  | PyBool b => if b then "true" else "false"
  | PyInt z => Py.int_str z
  | PyFloat q => one_decimal q
  | PyStr s => quoted s
  | PyList l => "[" ++ join ", " (map dumps l) ++ "]"
  | PyDict d =>
      "{" ++ join ", " (map (fun kv => let '(k, x) := kv in
                                      quoted k ++ ": " ++ dumps x) d) ++ "}"
  end.

#[export] Instance runtime : PyRuntime :=
  {| json_dumps := dumps; float_str := one_decimal |}.

End Reference.

(** ** Notions the properties are stated with *)

(** The table as SQLite keeps it: rowids strictly increasing along the scan
    and none above the AUTOINCREMENT counter. *)
Definition id_lt (a b : Row.t) : Prop := Row.id a < Row.id b.

Definition wf (db : database) : Prop :=
  StronglySorted id_lt (sessions db)
  /\ Forall (fun r => Row.id r <= sqlite_sequence db) (sessions db).

(** The tables the operations of database.py build from a fresh file. *)
Inductive reachable {rt : PyRuntime} : database -> Prop :=
| reach_init : reachable Sql.empty
| reach_save c p d t a m ts dt meta db sid db' :
    reachable db ->
    Database.save_session c p d t a m ts dt meta db = Ok (sid, db') ->
    reachable db'
| reach_delete sid db db' :
    reachable db ->
    Database.delete_session sid db = Ok db' ->
    reachable db'.

(** Orderings of a listing. *)
Definition ts_ge (a b : Row.t) : Prop := Row.timestamp a >= Row.timestamp b.

Definition tie_id_asc (a b : Row.t) : Prop :=
  Row.timestamp a = Row.timestamp b -> Row.id a < Row.id b.

Definition tie_id_desc (a b : Row.t) : Prop :=
  Row.timestamp a = Row.timestamp b -> Row.id a > Row.id b.

(** [hours_saved] as the specification words it: over the sessions that
    have an estimate, the sum of max(0, manual_estimate - actual_hours), in
    SQLite's arithmetic. *)
Definition has_estimate (r : Row.t) : bool :=
  match Row.manual_estimate r with Some _ => true | None => false end.

Definition floored_saving {sq : SqliteReal} (r : Row.t) : Q :=
  match Row.manual_estimate r with
  | Some est => Qmax 0 (real_sub est (Row.actual_hours r))
  | None => 0
  end.

Definition spec_hours_saved {sq : SqliteReal} (l : list Row.t) : Q :=
  real_sum (map floored_saving (filter has_estimate l)).

(** The responses of the routes. *)
Definition unauthorized {A : Type} : result A :=
  Raise (HTTPException 401 "Invalid API key").

Definition logged (session_id : Z) : pydict :=
  [("ok", PyBool true); ("id", PyInt session_id)].

(** The calls [log_session] makes for a request body. *)
Definition logged_task_type (s : SessionIn.t) : string :=
  Py.or_str (SessionIn.task_type s) "manual".

Definition logged_estimate (s : SessionIn.t) : Q :=
  Py.or_float (SessionIn.manual_estimate s) 0.

Definition store_session {rt : PyRuntime} (e : env) (s : SessionIn.t)
    (db : database) : result (Z * database) :=
  Database.save_session (save_clock e)
    (SessionIn.project s) (SessionIn.description s) (logged_task_type s)
    (SessionIn.actual_hours s) (SessionIn.manual_estimate s)
    (SessionIn.timestamp s) (SessionIn.date s) (SessionIn.metadata s) db.

Definition notable (s : SessionIn.t) : bool :=
  Main.should_notify (logged_task_type s) (SessionIn.actual_hours s)
                     (Some (logged_estimate s)).

Definition message_for {rt : PyRuntime} (s : SessionIn.t) : result string :=
  Main.build_notify_message (SessionIn.project s)
    (Py.or_str (SessionIn.description s) "") (logged_task_type s)
    (SessionIn.actual_hours s) (Some (logged_estimate s)).

(** The environment of a call with the queue append working. *)
Definition without_fault (e : env) : env :=
  {| save_clock := save_clock e; notify_time := notify_time e;
     queue_fault := false |}.

(** The text [get_sessions] returns in the metadata field. *)
Definition stored_metadata {rt : PyRuntime} (metadata : option pydict) : pyvalue :=
  match metadata with
  | Some m => if Py.truthy_dict m then PyStr (json_dumps (PyDict m)) else PyNone
  | None => PyNone
  end.

(** A table and a later state of it, any number of inserts and deletes
    apart. *)
Inductive evolves {rt : PyRuntime} : database -> database -> Prop :=
| evolves_refl db : evolves db db
| evolves_save c p d t a m ts dt meta db db1 sid db2 :
    evolves db db1 ->
    Database.save_session c p d t a m ts dt meta db1 = Ok (sid, db2) ->
    evolves db db2
| evolves_delete sid db db1 db2 :
    evolves db db1 ->
    Database.delete_session sid db1 = Ok db2 ->
    evolves db db2.

(** The timestamp [save_session] stores. *)
Definition stored_timestamp (c : clock) (timestamp : option Z) : Z :=
  Py.or_int timestamp (Py.int_of_float (time_time c * 1000)).

(** Whether [save_session] has to derive the date. *)
Definition date_missing (date : option string) : bool :=
  match date with
  | Some d => negb (Py.truthy_str d)
  | None => true
  end.


(** The line [notify_discord] appends to the queue file. *)
Definition queue_line {rt : PyRuntime} (e : env) (message : string) : string :=
  json_dumps (PyDict [ ("channel", PyStr Main.DISCORD_LOGS_CHANNEL);
                       ("message", PyStr message);
                       ("ts", PyFloat (notify_time e)) ])
    ++ String "010" "".

(** The worlds the routes of main.py produce from a fresh table. *)
Inductive served {rt : PyRuntime} : world -> Prop :=
| served_init q : served {| store := Sql.empty; notify_queue := q |}
| served_log e s key w :
    served w -> served (snd (Main.log_session e s key w))
| served_list limit key w :
    served w -> served (snd (Main.list_sessions limit key w))
| served_stats (sq : SqliteReal) key w :
    served w -> served (snd (Main.stats key w))
| served_remove sid key w :
    served w -> served (snd (Main.remove_session sid key w)).

(** ** Concrete inputs *)
Module Examples.

(** 2025-11-04 00:00:00 UTC. *)
Definition c0 : clock :=
  {| time_time := 1762214400; datetime_now := "2025-11-04 00:00:00" |}.

Definition e0 : env :=
  {| save_clock := c0; notify_time := 1762214400; queue_fault := false |}.

Definition e_fault : env :=
  {| save_clock := c0; notify_time := 1762214400; queue_fault := true |}.

Definition w0 : world := {| store := Sql.empty; notify_queue := "" |}.

(** Two sessions logged with the same timestamp. *)
Definition row1 : Row.t :=
  Row.mk 1 "alpha" None "manual" (1 # 4) None 5 "1970-01-01" None
         "2025-11-04 00:00:00".

Definition row2 : Row.t :=
  Row.mk 2 "beta" None "manual" (1 # 4) None 5 "1970-01-01" None
         "2025-11-04 00:00:00".

Definition db_ties : database :=
  {| sessions := [row1; row2]; sqlite_sequence := 2 |}.

(** One session of zero hours with an estimate of an eighth of an hour. *)
Definition row_eighth : Row.t :=
  Row.mk 1 "alpha" None "manual" 0 (Some (1 # 8)) 5 "1970-01-01" None
         "2025-11-04 00:00:00".

Definition db_eighth : database :=
  {| sessions := [row_eighth]; sqlite_sequence := 1 |}.

(** The first integers past the signed 64-bit range. *)
Definition too_large : Z := 2 ^ 63.
Definition too_small : Z := - 2 ^ 63 - 1.

(** A request body with every optional field given. *)
Definition meta0 : pydict := [("k", PyInt 1)].

Definition s_full : SessionIn.t :=
  SessionIn.mk "alpha" (Some "report") (Some "scan") 2 (Some 10%Q)
               (Some 5) (Some "2024-02-29") (Some meta0).

(** Zero hours against an estimate of ten. *)
Definition s_zero_hours : SessionIn.t :=
  SessionIn.mk "alpha" (Some "report") (Some "scan") 0 (Some 10%Q)
               None None None.

End Examples.

(** The order ORDER BY timestamp DESC gives a table scanned by rowid. *)
Definition listed_before (a b : Row.t) : Prop :=
  Row.timestamp b < Row.timestamp a
  \/ (Row.timestamp a = Row.timestamp b /\ Row.id a < Row.id b).

(** * Properties *)

(** ** Sorting and LIMIT *)

Section Sorting.

Lemma StronglySorted_weaken {A : Type} (R R' : A -> A -> Prop) (l : list A) :
  (forall a b, R a b -> R' a b) -> StronglySorted R l -> StronglySorted R' l.
Proof.
  intros HR; induction 1 as [| x l Hs IH Hall]; constructor; auto.
  eapply Forall_impl; [| exact Hall]. intros b; apply HR.
Qed.

Lemma StronglySorted_firstn {A : Type} (R : A -> A -> Prop) (n : nat) (l : list A) :
  StronglySorted R l -> StronglySorted R (firstn n l).
Proof.
  revert l; induction n as [| n IH]; intros l Hs; simpl.
  - constructor.
  - destruct l as [| x l]; [constructor |].
    inversion Hs as [| ? ? Hs' Hall]; subst.
    constructor; [apply IH; assumption |].
    rewrite Forall_forall in *. intros y Hy.
    apply Hall. rewrite <- (firstn_skipn n l). apply in_or_app; now left.
Qed.

Lemma insert_desc_perm (r : Row.t) (l : list Row.t) :
  Permutation (Sql.insert_desc r l) (r :: l).
Proof.
  induction l as [| x l IH]; simpl; [reflexivity |].
  destruct (Row.timestamp r <? Row.timestamp x); [| reflexivity].
  rewrite IH. apply perm_swap.
Qed.

Lemma order_by_perm (l : list Row.t) :
  Permutation (Sql.order_by_timestamp_desc l) l.
Proof.
  induction l as [| r l IH]; simpl; [constructor |].
  rewrite insert_desc_perm. now constructor.
Qed.

Lemma insert_desc_sorted (r : Row.t) (l : list Row.t) :
  StronglySorted listed_before l ->
  Forall (id_lt r) l ->
  StronglySorted listed_before (Sql.insert_desc r l).
Proof.
  induction 1 as [| x l Hs IH Hx]; intros Hr; simpl.
  - repeat constructor.
  - inversion Hr as [| ? ? Hrx Hrl]; subst.
    destruct (Z.ltb_spec (Row.timestamp r) (Row.timestamp x)) as [Hlt | Hge].
    + constructor; [apply IH; assumption |].
      eapply Permutation_Forall; [symmetry; apply insert_desc_perm |].
      constructor; [left; assumption | assumption].
    + constructor; [constructor; assumption |].
      assert (Hxr : listed_before r x).
      { unfold listed_before, id_lt in *. lia. }
      constructor; [assumption |].
      rewrite Forall_forall in *. intros y Hy.
      specialize (Hx y Hy). specialize (Hrl y Hy).
      unfold listed_before, id_lt in *. lia.
Qed.

Lemma order_by_sorted (l : list Row.t) :
  StronglySorted id_lt l ->
  StronglySorted listed_before (Sql.order_by_timestamp_desc l).
Proof.
  induction 1 as [| r l Hs IH Hr]; simpl; [constructor |].
  apply insert_desc_sorted; [assumption |].
  eapply Permutation_Forall; [symmetry; apply order_by_perm | assumption].
Qed.

(** Without any assumption on the rowids the timestamps still descend. *)
Lemma insert_desc_ts_sorted (r : Row.t) (l : list Row.t) :
  StronglySorted ts_ge l -> StronglySorted ts_ge (Sql.insert_desc r l).
Proof.
  induction 1 as [| x l Hs IH Hx]; simpl.
  - repeat constructor.
  - destruct (Z.ltb_spec (Row.timestamp r) (Row.timestamp x)) as [Hlt | Hge].
    + constructor; [assumption |].
      eapply Permutation_Forall; [symmetry; apply insert_desc_perm |].
      constructor; [unfold ts_ge; lia | assumption].
    + constructor; [constructor; assumption |].
      constructor; [unfold ts_ge; lia |].
      eapply Forall_impl; [| exact Hx]. unfold ts_ge; intros; lia.
Qed.

Lemma order_by_ts_sorted (l : list Row.t) :
  StronglySorted ts_ge (Sql.order_by_timestamp_desc l).
Proof.
  induction l as [| r l IH]; simpl; [constructor |].
  now apply insert_desc_ts_sorted.
Qed.

Lemma limit_rows_length {A : Type} (n : Z) (l : list A) :
  0 <= n -> Z.of_nat (length (Sql.limit_rows n l)) <= n.
Proof.
  intros Hn. unfold Sql.limit_rows.
  destruct (Z.ltb_spec n 0) as [? | _]; [lia |].
  rewrite length_firstn. lia.
Qed.

Lemma limit_rows_all {A : Type} (n : Z) (l : list A) :
  n < 0 \/ Z.of_nat (length l) <= n -> Sql.limit_rows n l = l.
Proof.
  intros Hn. unfold Sql.limit_rows.
  destruct (Z.ltb_spec n 0) as [? | Hpos]; [reflexivity |].
  apply firstn_all2. lia.
Qed.

Lemma limit_rows_split {A : Type} (n : Z) (l : list A) :
  exists rest, l = (Sql.limit_rows n l ++ rest)%list.
Proof.
  unfold Sql.limit_rows. destruct (n <? 0).
  - exists []. now rewrite app_nil_r.
  - exists (skipn (Z.to_nat n) l). now rewrite firstn_skipn.
Qed.

Lemma limit_rows_sorted {A : Type} (R : A -> A -> Prop) (n : Z) (l : list A) :
  StronglySorted R l -> StronglySorted R (Sql.limit_rows n l).
Proof.
  intros Hs. unfold Sql.limit_rows. destruct (n <? 0); [assumption |].
  now apply StronglySorted_firstn.
Qed.

End Sorting.


(** ** The table invariant *)

Section Invariant.
Context {rt : PyRuntime}.

Lemma wf_empty : wf Sql.empty.
Proof. split; constructor. Qed.

Lemma StronglySorted_snoc {A : Type} (R : A -> A -> Prop) (l : list A) (x : A) :
  StronglySorted R l -> Forall (fun y => R y x) l ->
  StronglySorted R (l ++ [x]).
Proof.
  induction 1 as [| y l Hs IH Hy]; intros Hall; simpl.
  - repeat constructor.
  - inversion Hall; subst.
    constructor; [apply IH; assumption |].
    apply Forall_app; split; [assumption | repeat constructor; assumption].
Qed.

(** What a successful [save_session] has checked and written. *)
Lemma save_session_inv c p d t a m ts dt meta db sid db' :
  Database.save_session c p d t a m ts dt meta db = Ok (sid, db') ->
  exists day,
    match dt with
    | Some x => if Py.truthy_str x then day = x
                else Calendar.utc_date
                       (Py.or_int ts (Py.int_of_float (time_time c * 1000)))
                     = Ok day
    | None => Calendar.utc_date
                (Py.or_int ts (Py.int_of_float (time_time c * 1000))) = Ok day
    end
    /\ Sql.fits_int64 (Py.or_int ts (Py.int_of_float (time_time c * 1000))) = true
    /\ Sql.fits_int64 sid = true
    /\ sid = sqlite_sequence db + 1
    /\ db' = {| sessions :=
                  (sessions db ++
                   [Row.mk sid p d t a m
                      (Py.or_int ts (Py.int_of_float (time_time c * 1000))) day
                      (match stored_metadata meta with
                       | PyStr text => Some text
                       | _ => None
                       end)
                      (datetime_now c)])%list;
                sqlite_sequence := sid |}.
Proof.
  unfold Database.save_session, bind, stored_metadata.
  set (stamp := Py.or_int ts (Py.int_of_float (time_time c * 1000))).
  intros H.
  assert (Hgen : forall day,
            (if Sql.fits_int64 stamp
             then if Sql.fits_int64 (sqlite_sequence db + 1)
                  then Ok (sqlite_sequence db + 1,
                           {| sessions :=
                                (sessions db ++
                                 [Row.mk (sqlite_sequence db + 1) p d t a m stamp day
                                    match meta with
                                    | Some m0 =>
                                        if Py.truthy_dict m0
                                        then Some (json_dumps (PyDict m0))
                                        else None
                                    | None => None
                                    end (datetime_now c)])%list;
                              sqlite_sequence := sqlite_sequence db + 1 |})
                  else Raise OperationalError
             else Raise OverflowError) = Ok (sid, db') ->
            Sql.fits_int64 stamp = true /\ Sql.fits_int64 sid = true
            /\ sid = sqlite_sequence db + 1
            /\ db' = {| sessions :=
                          (sessions db ++
                           [Row.mk sid p d t a m stamp day
                              (match
                                 match meta with
                                 | Some m0 =>
                                     if Py.truthy_dict m0
                                     then PyStr (json_dumps (PyDict m0))
                                     else PyNone
                                 | None => PyNone
                                 end
                               with
                               | PyStr text => Some text
                               | _ => None
                               end) (datetime_now c)])%list;
                        sqlite_sequence := sid |}).
  { intros day Hd.
    destruct (Sql.fits_int64 stamp); [| discriminate].
    destruct (Sql.fits_int64 (sqlite_sequence db + 1)) eqn:Hid; [| discriminate].
    inversion Hd; subst. repeat split; try assumption.
    destruct meta as [mm |]; [destruct (Py.truthy_dict mm) |]; reflexivity. }
  destruct dt as [x |].
  - destruct (Py.truthy_str x).
    + exists x. split; [reflexivity | now apply Hgen].
    + destruct (Calendar.utc_date stamp) as [day | ex]; [| discriminate].
      exists day. split; [reflexivity | now apply Hgen].
  - destruct (Calendar.utc_date stamp) as [day | ex]; [| discriminate].
    exists day. split; [reflexivity | now apply Hgen].
Qed.

Lemma save_session_rows c p d t a m ts dt meta db sid db' :
  Database.save_session c p d t a m ts dt meta db = Ok (sid, db') ->
  sid = sqlite_sequence db + 1
  /\ sqlite_sequence db' = sid
  /\ exists r, sessions db' = (sessions db ++ [r])%list /\ Row.id r = sid.
Proof.
  intros H. apply save_session_inv in H as (day & _ & _ & _ & Hsid & ->).
  simpl. repeat split; [exact Hsid |]. eexists; split; reflexivity.
Qed.

Lemma save_session_id_fits c p d t a m ts dt meta db sid db' :
  Database.save_session c p d t a m ts dt meta db = Ok (sid, db') ->
  Sql.fits_int64 sid = true.
Proof.
  intros H. apply save_session_inv in H as (day & _ & _ & Hfit & _). exact Hfit.
Qed.

Lemma save_session_wf c p d t a m ts dt meta db sid db' :
  wf db ->
  Database.save_session c p d t a m ts dt meta db = Ok (sid, db') ->
  wf db'.
Proof.
  intros [Hs Hb] H.
  apply save_session_rows in H as (-> & Hseq & r & Hrows & Hid).
  unfold wf. rewrite Hrows, Hseq. split.
  - apply StronglySorted_snoc; [assumption |].
    eapply Forall_impl; [| exact Hb]. unfold id_lt; intros; lia.
  - apply Forall_app; split.
    + eapply Forall_impl; [| exact Hb]. simpl; intros; lia.
    + repeat constructor. lia.
Qed.

Lemma StronglySorted_filter {A : Type} (R : A -> A -> Prop) (f : A -> bool) (l : list A) :
  StronglySorted R l -> StronglySorted R (filter f l).
Proof.
  induction 1 as [| x l Hs IH Hx]; simpl; [constructor |].
  destruct (f x); [| assumption].
  constructor; [assumption |].
  rewrite Forall_forall in *. intros y Hy.
  apply Hx. apply filter_In in Hy. tauto.
Qed.

(** What a [delete_session] that returned has done. *)
Lemma delete_session_inv sid db db' :
  Database.delete_session sid db = Ok db' ->
  Sql.fits_int64 sid = true /\ db' = Sql.delete_where_id sid db.
Proof.
  unfold Database.delete_session.
  destruct (Sql.fits_int64 sid); [| discriminate].
  intros H; inversion H; now split.
Qed.

Lemma delete_session_fits sid db :
  Sql.fits_int64 sid = true ->
  Database.delete_session sid db = Ok (Sql.delete_where_id sid db).
Proof. unfold Database.delete_session. now intros ->. Qed.

Lemma delete_session_overflow sid db :
  Sql.fits_int64 sid = false ->
  Database.delete_session sid db = Raise OverflowError.
Proof. unfold Database.delete_session. now intros ->. Qed.

Lemma delete_where_id_wf sid db : wf db -> wf (Sql.delete_where_id sid db).
Proof.
  intros [Hs Hb]. split; simpl.
  - now apply StronglySorted_filter.
  - rewrite Forall_forall in *. intros r Hr.
    apply Hb. apply filter_In in Hr. tauto.
Qed.

Lemma delete_session_wf sid db db' :
  wf db -> Database.delete_session sid db = Ok db' -> wf db'.
Proof.
  intros Hwf H. apply delete_session_inv in H as [_ ->].
  now apply delete_where_id_wf.
Qed.

Lemma reachable_wf (db : database) : reachable db -> wf db.
Proof.
  induction 1 as [| c p d t a m ts dt meta db sid db' _ IH Hsave
                  | sid db db' _ IH Hdel].
  - exact wf_empty.
  - exact (save_session_wf _ _ _ _ _ _ _ _ _ _ _ _ IH Hsave).
  - exact (delete_session_wf _ _ _ IH Hdel).
Qed.

End Invariant.

Lemma db_ties_logged (rt : PyRuntime) :
  (r1 <- Database.save_session Examples.c0 "alpha" None "manual" (1 # 4) None
           (Some 5) None None Sql.empty ;;
   Database.save_session Examples.c0 "beta" None "manual" (1 # 4) None
           (Some 5) None None (snd r1))
  = Ok (2, Examples.db_ties).
Proof. reflexivity. Qed.

Lemma wf_db_ties : wf Examples.db_ties.
Proof.
  split; repeat constructor; unfold id_lt; simpl; lia.
Defined.

(** ** Listing *)

Lemma StronglySorted_app_cross {A : Type} (R : A -> A -> Prop) (l1 l2 : list A) :
  StronglySorted R (l1 ++ l2) ->
  forall a b, In a l1 -> In b l2 -> R a b.
Proof.
  induction l1 as [| x l1 IH]; simpl; intros Hs a b Ha Hb; [contradiction |].
  inversion Hs as [| ? ? Hs' Hall]; subst.
  destruct Ha as [-> | Ha].
  - rewrite Forall_forall in Hall. apply Hall. apply in_or_app; now right.
  - now apply IH.
Qed.

Lemma get_sessions_fits (limit : Z) (db : database) :
  Sql.fits_int64 limit = true ->
  Database.get_sessions limit db
  = Ok (map Database.dict_of_row (Database.select_sessions limit db)).
Proof. unfold Database.get_sessions. now intros ->. Qed.

Lemma get_sessions_overflow (limit : Z) (db : database) :
  Sql.fits_int64 limit = false ->
  Database.get_sessions limit db = Raise OverflowError.
Proof. unfold Database.get_sessions. now intros ->. Qed.

Lemma get_sessions_inv (limit : Z) (db : database) (l : list pydict) :
  Database.get_sessions limit db = Ok l ->
  Sql.fits_int64 limit = true
  /\ l = map Database.dict_of_row (Database.select_sessions limit db).
Proof.
  unfold Database.get_sessions.
  destruct (Sql.fits_int64 limit); [| discriminate].
  intros H; inversion H; now split.
Qed.

(** C4, as amended: a limit outside the signed 64-bit range raises
    OverflowError.  For a limit within it the listing has at most [limit]
    sessions when the limit is not negative and every stored session when
    it is negative; its timestamps descend; sessions that share a timestamp
    come in ascending id order, oldest first (the query has no second key,
    so they keep the order of the table scan); every session listed is
    stored, and a stored session left out is no more recent than any
    session listed. *)
Theorem get_sessions_ordered (db : database) (limit : Z) :
  wf db ->
  (Sql.fits_int64 limit = false ->
     Database.get_sessions limit db = Raise OverflowError)
  /\ (Sql.fits_int64 limit = true ->
        let rs := Database.select_sessions limit db in
        Database.get_sessions limit db = Ok (map Database.dict_of_row rs)
        /\ (0 <= limit -> Z.of_nat (length rs) <= limit)
        /\ (limit < 0 -> length rs = length (sessions db))
        /\ StronglySorted ts_ge rs
        /\ StronglySorted tie_id_asc rs
        /\ (forall r, In r rs -> In r (sessions db))
        /\ (forall r r', In r rs -> In r' (sessions db) -> ~ In r' rs ->
              Row.timestamp r' <= Row.timestamp r)).
Proof.
  intros [Hs _]. split; [apply get_sessions_overflow |].
  intros Hfit rs. subst rs. split; [now apply get_sessions_fits |].
  unfold Database.select_sessions.
  set (sorted := Sql.order_by_timestamp_desc (sessions db)).
  assert (Hperm : Permutation sorted (sessions db)) by apply order_by_perm.
  destruct (limit_rows_split limit sorted) as [rest Hsplit].
  repeat split.
  - intros Hl. now apply limit_rows_length.
  - intros Hl. rewrite limit_rows_all by now left.
    apply Permutation_length, Hperm.
  - apply limit_rows_sorted, order_by_ts_sorted.
  - apply limit_rows_sorted.
    apply StronglySorted_weaken with (R := listed_before).
    + unfold listed_before, tie_id_asc. intros a b H Heq. lia.
    + now apply order_by_sorted.
  - intros r Hr. eapply Permutation_in; [exact Hperm |].
    rewrite Hsplit. apply in_or_app; now left.
  - intros r r' Hr Hr' Hout.
    assert (Hin : In r' sorted)
      by (eapply Permutation_in; [symmetry; exact Hperm | exact Hr']).
    rewrite Hsplit in Hin. apply in_app_or in Hin as [Hin | Hin]; [contradiction |].
    pose proof (order_by_ts_sorted (sessions db)) as Hts.
    fold sorted in Hts. rewrite Hsplit in Hts.
    pose proof (StronglySorted_app_cross _ _ _ Hts r r' Hr Hin) as Hge.
    unfold ts_ge in Hge. lia.
Qed.

Lemma get_sessions_ordered_witness :
  wf Examples.db_ties
  /\ Database.get_sessions 1 Examples.db_ties
     = Ok (map Database.dict_of_row (Database.select_sessions 1 Examples.db_ties))
  /\ Z.of_nat (length (Database.select_sessions 1 Examples.db_ties)) <= 1.
Proof.
  split; [exact wf_db_ties |].
  pose proof (proj2 (get_sessions_ordered Examples.db_ties 1 wf_db_ties) eq_refl)
    as (Hget & Hlen & _).
  split; [exact Hget | apply Hlen; lia].
Defined.

(** C4 as stated fails: two sessions with the same timestamp are listed
    with the older id first, not by id descending; a negative limit lists
    every session, more than the limit; and a limit of 2 ^ 63 lists
    nothing, the call raises OverflowError. *)
Lemma get_sessions_ties_oldest_first :
  Database.get_sessions 200 Examples.db_ties
    = Ok [Database.dict_of_row Examples.row1; Database.dict_of_row Examples.row2]
  /\ map (dict_get "timestamp")
         [Database.dict_of_row Examples.row1; Database.dict_of_row Examples.row2]
     = [Some (PyInt 5); Some (PyInt 5)]
  /\ map (dict_get "id")
         [Database.dict_of_row Examples.row1; Database.dict_of_row Examples.row2]
     = [Some (PyInt 1); Some (PyInt 2)]
  /\ ~ StronglySorted tie_id_desc (Database.select_sessions 200 Examples.db_ties)
  /\ Database.get_sessions (-1) Examples.db_ties
     = Ok [Database.dict_of_row Examples.row1; Database.dict_of_row Examples.row2]
  /\ Database.get_sessions Examples.too_large Examples.db_ties
     = Raise OverflowError.
Proof.
  repeat split.
  intros H. inversion H as [| ? ? _ Hall]; subst.
  inversion Hall as [| ? ? Hd _]; subst.
  unfold tie_id_desc in Hd. simpl in Hd. specialize (Hd eq_refl). lia.
Qed.

(** ** Deleting *)

Lemma filter_other_ids_absent (sid : Z) (l : list Row.t) :
  ~ In sid (map Row.id l) ->
  filter (fun r => negb (Row.id r =? sid)) l = l.
Proof.
  induction l as [| x l IH]; simpl; intros Hn; [reflexivity |].
  destruct (Z.eqb_spec (Row.id x) sid) as [Heq | _]; simpl.
  - exfalso. apply Hn. now left.
  - f_equal. apply IH. intros Hin. apply Hn. now right.
Qed.

Lemma filter_other_ids_present (r : Row.t) (l : list Row.t) :
  StronglySorted id_lt l -> In r l ->
  exists l1 l2,
    l = (l1 ++ r :: l2)%list
    /\ filter (fun x => negb (Row.id x =? Row.id r)) l = (l1 ++ l2)%list.
Proof.
  induction 1 as [| x l Hs IH Hx]; simpl; intros Hin; [contradiction |].
  destruct Hin as [-> | Hin].
  - exists [], l. split; [reflexivity |].
    rewrite Z.eqb_refl. simpl.
    apply filter_other_ids_absent. intros Hin.
    apply in_map_iff in Hin as (y & Hy & Hyl).
    rewrite Forall_forall in Hx. specialize (Hx y Hyl).
    unfold id_lt in Hx. lia.
  - destruct (IH Hin) as (l1 & l2 & Hl & Hf).
    exists (x :: l1), l2. split; [simpl; now f_equal |].
    rewrite Forall_forall in Hx. specialize (Hx r Hin). unfold id_lt in Hx.
    destruct (Z.eqb_spec (Row.id x) (Row.id r)) as [Heq | _]; [lia |].
    simpl. now f_equal.
Qed.

(** C9, as amended: deleting an id within the signed 64-bit range that no
    stored session has raises nothing and leaves the store as it was, rows
    and count; an id outside that range raises OverflowError, the store
    staying as it was; deleting the id of a stored session removes that row
    and no other; the route answers ok when the call returns and ends in
    the exception when it raises. *)
Theorem delete_session_exact (db : database) (sid : Z) :
  wf db ->
  (Sql.fits_int64 sid = false ->
     Database.delete_session sid db = Raise OverflowError
     /\ forall q,
          Main.remove_session sid (Some Main.API_KEY)
                              {| store := db; notify_queue := q |}
          = (Raise OverflowError, {| store := db; notify_queue := q |}))
  /\ (Sql.fits_int64 sid = true ->
        ~ In sid (map Row.id (sessions db)) ->
        Database.delete_session sid db = Ok db)
  /\ (Sql.fits_int64 sid = true ->
        forall r, In r (sessions db) -> Row.id r = sid ->
        exists l1 l2 db',
          Database.delete_session sid db = Ok db'
          /\ sessions db = (l1 ++ r :: l2)%list
          /\ sessions db' = (l1 ++ l2)%list
          /\ sqlite_sequence db' = sqlite_sequence db)
  /\ (Sql.fits_int64 sid = true ->
        forall q,
          Main.remove_session sid (Some Main.API_KEY)
                              {| store := db; notify_queue := q |}
          = (Ok [("ok", PyBool true)],
             {| store := Sql.delete_where_id sid db; notify_queue := q |})).
Proof.
  intros [Hs _]. split; [| split; [| split]].
  - intros Hfit. split; [now apply delete_session_overflow |].
    intros q. unfold Main.remove_session. simpl.
    now rewrite (delete_session_overflow sid db Hfit).
  - intros Hfit Hn. rewrite (delete_session_fits sid db Hfit). f_equal.
    destruct db as [rows seq]. unfold Sql.delete_where_id; simpl in *.
    f_equal. now apply filter_other_ids_absent.
  - intros Hfit r Hin <-.
    destruct (filter_other_ids_present r _ Hs Hin) as (l1 & l2 & Hl & Hf).
    exists l1, l2, (Sql.delete_where_id (Row.id r) db).
    split; [now apply delete_session_fits |]. repeat split; assumption.
  - intros Hfit q. unfold Main.remove_session. simpl.
    now rewrite (delete_session_fits sid db Hfit).
Qed.

Lemma delete_session_exact_witness :
  wf Examples.db_ties
  /\ Database.delete_session 7 Examples.db_ties = Ok Examples.db_ties.
Proof.
  split; [exact wf_db_ties |].
  apply (proj1 (proj2 (delete_session_exact Examples.db_ties 7 wf_db_ties)) eq_refl).
  simpl. intros [H | [H | []]]; discriminate.
Defined.

(** C9 as stated fails: the ids 2 ^ 63 and - 2 ^ 63 - 1 are not stored, and
    deleting them raises OverflowError, which the route passes on. *)
Lemma delete_session_out_of_range :
  ~ In Examples.too_large (map Row.id (sessions Examples.db_ties))
  /\ Database.delete_session Examples.too_large Examples.db_ties
     = Raise OverflowError
  /\ ~ In Examples.too_small (map Row.id (sessions Examples.db_ties))
  /\ Database.delete_session Examples.too_small Examples.db_ties
     = Raise OverflowError
  /\ Main.remove_session Examples.too_large (Some Main.API_KEY)
       {| store := Examples.db_ties; notify_queue := "" |}
     = (Raise OverflowError,
        {| store := Examples.db_ties; notify_queue := "" |}).
Proof.
  repeat split; simpl; intros [H | [H | []]]; discriminate.
Qed.

(** ** Authentication *)

Lemma require_key_rejects (key : option string) :
  key <> Some Main.API_KEY -> Main.require_key key = unauthorized.
Proof.
  intros Hk. unfold Main.require_key. destruct key as [k |]; [| reflexivity].
  destruct (String.eqb_spec k Main.API_KEY) as [-> | _]; [| reflexivity].
  now contradiction Hk.
Qed.

(** C7: with the key absent or different from the shared secret, each of
    the four protected routes ends in 401 and leaves the world as it was:
    no row stored, no row deleted, nothing added to the notification
    queue. *)
Theorem unauthorized_no_side_effect {rt : PyRuntime} {sq : SqliteReal}
    (key : option string) (e : env) (session : SessionIn.t) (limit sid : Z) (w : world) :
  key <> Some Main.API_KEY ->
  Main.log_session e session key w = (unauthorized, w)
  /\ Main.list_sessions limit key w = (unauthorized, w)
  /\ Main.stats key w = (unauthorized, w)
  /\ Main.remove_session sid key w = (unauthorized, w).
Proof.
  intros Hk. apply require_key_rejects in Hk.
  unfold Main.log_session, Main.list_sessions, Main.stats, Main.remove_session.
  rewrite Hk. unfold unauthorized. repeat split.
Qed.

Lemma unauthorized_no_side_effect_witness :
  Main.log_session (rt := Reference.runtime) Examples.e0 Examples.s_full
                   (Some "guess") Examples.w0
    = (unauthorized, Examples.w0)
  /\ Main.list_sessions 200 (Some "guess") Examples.w0 = (unauthorized, Examples.w0)
  /\ Main.stats (sq := Reference.reals) (Some "guess") Examples.w0
     = (unauthorized, Examples.w0)
  /\ Main.remove_session 1 (Some "guess") Examples.w0 = (unauthorized, Examples.w0).
Proof.
  apply (unauthorized_no_side_effect (rt := Reference.runtime)
           (sq := Reference.reals) (Some "guess")).
  discriminate.
Defined.

(** ** The notification policy *)

Lemma float_ge_iff (x y : Q) : Py.float_ge x y = true <-> (y <= x)%Q.
Proof. unfold Py.float_ge. apply Qle_bool_iff. Qed.

Lemma ge_ten_truthy (est : Q) : (10 <= est)%Q -> Py.truthy_float est = true.
Proof.
  unfold Py.truthy_float, Qle. destruct est as [n d]; simpl.
  intros H. destruct (Z.eqb_spec n 0) as [-> | _]; [lia | reflexivity].
Qed.

(** C5: [should_notify] is true exactly when the task type is "scan", or
    the actual hours are at least 0.5, or an estimate is present and at
    least 10.0; the four sample calls give true, false, true, true. *)
Theorem should_notify_iff (task_type : string) (actual_hours : Q)
    (manual_estimate : option Q) :
  (Main.should_notify task_type actual_hours manual_estimate = true
   <-> (task_type = "scan"
        \/ (1 # 2 <= actual_hours)%Q
        \/ exists est, manual_estimate = Some est /\ (10 <= est)%Q))
  /\ Main.should_notify "scan" (1 # 100) None = true
  /\ Main.should_notify "manual" (4 # 10) (Some 9%Q) = false
  /\ Main.should_notify "manual" (4 # 10) (Some 10%Q) = true
  /\ Main.should_notify "manual" (6 # 10) None = true.
Proof.
  split; [| repeat split].
  unfold Main.should_notify.
  destruct (String.eqb_spec task_type "scan") as [-> | Hscan].
  { split; auto. }
  destruct (Py.float_ge actual_hours (1 # 2)) eqn:Hh.
  { apply float_ge_iff in Hh. split; auto. }
  assert (Hlow : ~ (1 # 2 <= actual_hours)%Q).
  { intros H. apply float_ge_iff in H. congruence. }
  destruct manual_estimate as [est |].
  - destruct (Py.float_ge est 10) eqn:He.
    + apply float_ge_iff in He. rewrite (ge_ten_truthy est He). simpl.
      split; eauto.
    + rewrite andb_false_r. split; [discriminate |].
      intros [H | [H | (x & Hx & Hge)]]; [contradiction | contradiction |].
      inversion Hx; subst. apply float_ge_iff in Hge. congruence.
  - split; [discriminate |].
    intros [H | [H | (x & Hx & _)]]; [contradiction | contradiction | discriminate].
Qed.

(** ** Defaults of [save_session] *)

(** C1 (the code departs from it): a timestamp given as 0 is taken for an
    absent one, so the clock is stored and the date comes from the clock.
    Logged on 2025-11-04 with timestamp 0 and no date, the row carries
    timestamp 1762214400000 and date "2025-11-04", not "1970-01-01"; a
    timestamp of 1 is kept and dated "1970-01-01". *)
Theorem save_session_timestamp_zero {rt : PyRuntime} :
  (forall c p d t a m meta db,
     Database.save_session c p d t a m (Some 0) None meta db
     = Database.save_session c p d t a m None None meta db)
  /\ Database.save_session Examples.c0 "alpha" None "manual" (1 # 4) None
       (Some 0) None None Sql.empty
     = Ok (1, {| sessions :=
                   [Row.mk 1 "alpha" None "manual" (1 # 4) None 1762214400000
                           "2025-11-04" None "2025-11-04 00:00:00"];
                 sqlite_sequence := 1 |})
  /\ Database.save_session Examples.c0 "alpha" None "manual" (1 # 4) None
       (Some 1) None None Sql.empty
     = Ok (1, {| sessions :=
                   [Row.mk 1 "alpha" None "manual" (1 # 4) None 1
                           "1970-01-01" None "2025-11-04 00:00:00"];
                 sqlite_sequence := 1 |}).
Proof. repeat split. Qed.

(** C10: an empty metadata map is stored as NULL, not as a serialized empty
    object, and an empty date string is replaced by the date derived from
    the timestamp; either call is the call with the field omitted. *)
Theorem save_session_empty_as_absent {rt : PyRuntime} (c : clock)
    (p : string) (d : option string) (t : string) (a : Q) (m : option Q)
    (ts : option Z) (dt : option string) (meta : option pydict) (db : database) :
  Database.save_session c p d t a m ts dt (Some []) db
    = Database.save_session c p d t a m ts dt None db
  /\ Database.save_session c p d t a m ts (Some "") meta db
    = Database.save_session c p d t a m ts None meta db
  /\ Database.save_session c p d t a m ts (Some "") (Some []) db
    = (let stamp := Py.or_int ts (Py.int_of_float (time_time c * 1000)) in
       day <- Calendar.utc_date stamp ;;
       if Sql.fits_int64 stamp then
         if Sql.fits_int64 (sqlite_sequence db + 1) then
           Ok (sqlite_sequence db + 1,
               {| sessions :=
                    (sessions db ++
                     [Row.mk (sqlite_sequence db + 1) p d t a m stamp day None
                             (datetime_now c)])%list;
                  sqlite_sequence := sqlite_sequence db + 1 |})
         else Raise OperationalError
       else Raise OverflowError).
Proof. repeat split. Qed.

(** ** The notification message *)

Lemma positive_truthy (est : Q) :
  (0 < est)%Q -> Py.truthy_float est && Py.float_gt est 0 = true.
Proof.
  intros Hpos. apply andb_true_intro; split.
  - unfold Py.truthy_float. destruct est as [n d]. unfold Qlt in Hpos; simpl in *.
    destruct (Z.eqb_spec n 0) as [-> | _]; [lia | reflexivity].
  - unfold Py.float_gt. destruct (Qle_bool est 0) eqn:Hle; [| reflexivity].
    apply Qle_bool_iff in Hle. exfalso. apply (Qlt_not_le _ _ Hpos Hle).
Qed.

Lemma truediv_by_zero (x y : Q) :
  (y == 0)%Q -> Py.truediv x y = Raise ZeroDivisionError.
Proof.
  unfold Py.truediv, Qeq. destruct y as [n d]; simpl. intros H.
  destruct (Z.eqb_spec n 0) as [_ | Hn]; [reflexivity | lia].
Qed.

(** C2 (the code departs from it): with actual hours exactly zero and a
    positive estimate the multiplier is not skipped; the division is made
    and [build_notify_message] ends in ZeroDivisionError. *)
Theorem build_notify_message_zero_hours {rt : PyRuntime}
    (project description task_type : string) (actual_hours est : Q) :
  (actual_hours == 0)%Q ->
  (0 < est)%Q ->
  Main.build_notify_message project description task_type actual_hours (Some est)
  = Raise ZeroDivisionError.
Proof.
  intros Hz Hpos. unfold Main.build_notify_message.
  rewrite (positive_truthy est Hpos), (truediv_by_zero est actual_hours Hz).
  reflexivity.
Qed.

Lemma build_notify_message_zero_hours_witness :
  Main.build_notify_message (rt := Reference.runtime) "alpha" "report" "scan" 0
                            (Some 10%Q)
  = Raise ZeroDivisionError.
Proof.
  apply (build_notify_message_zero_hours (rt := Reference.runtime)
           "alpha" "report" "scan" 0 10); reflexivity.
Defined.

(** The same call reached through POST /api/log: the session is stored,
    then the request ends in the exception. *)
Lemma log_session_zero_hours :
  Main.log_session (rt := Reference.runtime) Examples.e0 Examples.s_zero_hours
                   (Some Main.API_KEY) Examples.w0
  = (Raise ZeroDivisionError,
     {| store :=
          {| sessions :=
               [Row.mk 1 "alpha" (Some "report") "scan" 0 (Some 10%Q)
                       1762214400000 "2025-11-04" None "2025-11-04 00:00:00"];
             sqlite_sequence := 1 |};
        notify_queue := "" |}).
Proof. reflexivity. Qed.

(** Without an estimate that is present and positive the clause is left
    out and nothing is divided. *)
Lemma build_notify_message_no_estimate {rt : PyRuntime}
    (project description task_type : string) (actual_hours : Q) :
  exists msg,
    Main.build_notify_message project description task_type actual_hours None
      = Ok msg
    /\ Main.build_notify_message project description task_type actual_hours
         (Some 0%Q) = Ok msg.
Proof. eexists; split; reflexivity. Qed.

(** ** Statistics *)

Section Stats.
Context {sq : SqliteReal} {laws : SqliteRealLaws sq}.

Lemma Forall2_Qeq_refl (l : list Q) : Forall2 Qeq l l.
Proof. induction l; constructor; [reflexivity | assumption]. Qed.

Lemma real_round2_comp (x y : Q) :
  (x == y)%Q -> (real_round2 x == real_round2 y)%Q.
Proof.
  intros Hxy. apply Qle_antisym; apply real_round2_monotone;
    rewrite Hxy; apply Qle_refl.
Qed.

Lemma max2_Qmax (x y : Q) : (Sql.max2 x y == Qmax x y)%Q.
Proof.
  unfold Sql.max2. destruct (Qle_bool x y) eqn:H.
  - apply Qle_bool_iff in H. symmetry. now apply Q.max_r.
  - symmetry. apply Q.max_l. apply Qlt_le_weak, Qnot_le_lt.
    intros Hle. apply Qle_bool_iff in Hle. congruence.
Qed.

Lemma saved_case_floored (r : Row.t) :
  (Database.saved_case r == floored_saving r)%Q.
Proof.
  unfold Database.saved_case, floored_saving.
  destruct (Row.manual_estimate r); [apply max2_Qmax | reflexivity].
Qed.

Lemma saved_case_nonneg (r : Row.t) : (0 <= Database.saved_case r)%Q.
Proof.
  rewrite saved_case_floored. unfold floored_saving.
  destruct (Row.manual_estimate r); [apply Q.le_max_l | apply Qle_refl].
Qed.

Lemma saved_cases_nonneg (l : list Row.t) :
  Forall (fun x => 0 <= x)%Q (map Database.saved_case l).
Proof.
  apply Forall_forall. intros x Hx. apply in_map_iff in Hx as (r & <- & _).
  apply saved_case_nonneg.
Qed.

(** The sum of the CASE expression over all rows is the sum of the floored
    savings over the rows that have an estimate. *)
Lemma sum_saved_spec_from (pre : list Q) (l : list Row.t) :
  (real_sum (pre ++ map Database.saved_case l)
   == real_sum (pre ++ map floored_saving (filter has_estimate l)))%Q.
Proof.
  revert pre; induction l as [| r l IH]; intros pre; simpl; [reflexivity |].
  destruct (has_estimate r) eqn:He; simpl.
  - transitivity (real_sum ((pre ++ [floored_saving r])
                              ++ map Database.saved_case l)).
    + rewrite <- app_assoc. simpl. apply real_sum_values.
      apply Forall2_app; [apply Forall2_Qeq_refl |].
      constructor; [apply saved_case_floored | apply Forall2_Qeq_refl].
    + rewrite IH, <- app_assoc. reflexivity.
  - rewrite real_sum_skip_zero; [apply IH |].
    unfold has_estimate in He. unfold Database.saved_case.
    destruct (Row.manual_estimate r); [discriminate | reflexivity].
Qed.

Lemma sum_saved_spec (l : list Row.t) :
  (real_sum (map Database.saved_case l) == spec_hours_saved l)%Q.
Proof. exact (sum_saved_spec_from [] l). Qed.

End Stats.

(** C6, as amended: [hours_saved] is SQLite's ROUND to two decimals of its
    SUM, over the sessions that have an estimate, of max(0, manual_estimate
    - actual_hours), and is absent for a store without sessions; a session
    whose actual hours exceed its estimate contributes 0, each contribution
    being floored before the sum; [hours_saved] is never negative. *)
Theorem hours_saved_floored_per_row {sq : SqliteReal}
    (laws : SqliteRealLaws sq) (db : database) :
  dict_get "hours_saved" (Database.get_stats db)
    = Some (Database.opt_float (Database.hours_saved db))
  /\ (sessions db = [] -> Database.hours_saved db = None)
  /\ (sessions db <> [] ->
        exists q, Database.hours_saved db = Some q
                  /\ (q == real_round2 (spec_hours_saved (sessions db)))%Q)
  /\ (forall r est, Row.manual_estimate r = Some est ->
        (est < Row.actual_hours r)%Q -> (Database.saved_case r == 0)%Q)
  /\ (forall r, 0 <= Database.saved_case r)%Q
  /\ (forall q, Database.hours_saved db = Some q -> (0 <= q)%Q).
Proof.
  unfold Database.hours_saved, Sql.sum.
  split; [reflexivity |]. split; [intros ->; reflexivity |].
  split; [| split; [| split]].
  - intros Hne. destruct (sessions db) as [| r l] eqn:Hrows; [congruence |].
    eexists; split; [reflexivity |].
    apply real_round2_comp, sum_saved_spec.
  - intros r est Hest Hlt. unfold Database.saved_case, Sql.max2. rewrite Hest.
    apply real_sub_negative in Hlt.
    destruct (Qle_bool 0 (real_sub est (Row.actual_hours r))) eqn:Hb;
      [| reflexivity].
    apply Qle_bool_iff in Hb. exfalso. exact (Qlt_not_le _ _ Hlt Hb).
  - apply saved_case_nonneg.
  - intros q. destruct (sessions db) as [| r l]; simpl; [discriminate |].
    intros H; inversion H; subst.
    apply real_round2_nonneg, real_sum_nonneg.
    exact (saved_cases_nonneg (r :: l)).
Qed.

(** The exact arithmetic on rationals keeps the laws asked of SQLite's. *)
Section ExactArithmetic.

Lemma Qplus_nonneg (a b : Q) : (0 <= a -> 0 <= b -> 0 <= a + b)%Q.
Proof. intros Ha Hb. exact (Qplus_le_compat 0 a 0 b Ha Hb). Qed.

Lemma exact_sum_from (l : list Q) (acc : Q) :
  (fold_left Qplus l acc == acc + Reference.exact_sum l)%Q.
Proof.
  unfold Reference.exact_sum.
  revert acc; induction l as [| x l IH]; intros acc; simpl; [ring |].
  rewrite IH, (IH (0 + x)%Q). ring.
Qed.

Lemma exact_sum_cons (x : Q) (l : list Q) :
  (Reference.exact_sum (x :: l) == x + Reference.exact_sum l)%Q.
Proof. unfold Reference.exact_sum at 1. simpl. rewrite exact_sum_from. ring. Qed.

Lemma exact_sum_app (l1 l2 : list Q) :
  (Reference.exact_sum (l1 ++ l2)
   == Reference.exact_sum l1 + Reference.exact_sum l2)%Q.
Proof.
  induction l1 as [| x l1 IH]; simpl.
  - unfold Reference.exact_sum at 2. simpl. ring.
  - rewrite !exact_sum_cons, IH. ring.
Qed.

Lemma exact_sum_values (l l' : list Q) :
  Forall2 Qeq l l' -> (Reference.exact_sum l == Reference.exact_sum l')%Q.
Proof.
  induction 1 as [| x y l l' Hxy _ IH]; [reflexivity |].
  now rewrite !exact_sum_cons, Hxy, IH.
Qed.

Lemma exact_sum_nonneg (l : list Q) :
  Forall (fun x => 0 <= x)%Q l -> (0 <= Reference.exact_sum l)%Q.
Proof.
  induction 1 as [| x l Hx _ IH]; [apply Qle_refl |].
  rewrite exact_sum_cons. now apply Qplus_nonneg.
Qed.

Lemma exact_round2_nonneg (x : Q) :
  (0 <= x)%Q -> (0 <= Reference.exact_round2 x)%Q.
Proof.
  intros Hx. unfold Reference.exact_round2.
  assert (Hb : Qle_bool 0 x = true) by now apply Qle_bool_iff.
  rewrite Hb.
  assert (Hf : (0 <= Qfloor (x * 100 + (1 # 2)))%Z).
  { change 0%Z with (Qfloor 0). apply Qfloor_resp_le.
    apply Qplus_nonneg; [| discriminate].
    apply Qmult_le_0_compat; [exact Hx | discriminate]. }
  apply Qle_shift_div_l; [reflexivity |].
  rewrite Qmult_0_l. change 0%Q with (inject_Z 0). now rewrite <- Zle_Qle.
Qed.

Lemma exact_round2_nonpos (x : Q) :
  (x < 0)%Q -> (Reference.exact_round2 x <= 0)%Q.
Proof.
  intros Hx. unfold Reference.exact_round2.
  destruct (Qle_bool 0 x) eqn:Hb.
  { apply Qle_bool_iff in Hb. exfalso. exact (Qlt_not_le _ _ Hx Hb). }
  assert (Hf : (0 <= Qfloor (- x * 100 + (1 # 2)))%Z).
  { change 0%Z with (Qfloor 0). apply Qfloor_resp_le.
    apply Qplus_nonneg; [| discriminate].
    apply Qmult_le_0_compat; [lra | discriminate]. }
  rewrite Zle_Qle in Hf. change (inject_Z 0) with 0%Q in Hf.
  assert (Hd : (0 <= inject_Z (Qfloor (- x * 100 + (1 # 2))) / 100)%Q).
  { apply Qle_shift_div_l; [reflexivity |]. now rewrite Qmult_0_l. }
  lra.
Qed.

Lemma exact_round2_monotone (x y : Q) :
  (x <= y)%Q -> (Reference.exact_round2 x <= Reference.exact_round2 y)%Q.
Proof.
  intros Hxy.
  destruct (Qlt_le_dec x 0) as [Hx | Hx], (Qlt_le_dec y 0) as [Hy | Hy].
  - unfold Reference.exact_round2.
    destruct (Qle_bool 0 x) eqn:Hbx;
      [apply Qle_bool_iff in Hbx; exfalso; exact (Qlt_not_le _ _ Hx Hbx) |].
    destruct (Qle_bool 0 y) eqn:Hby;
      [apply Qle_bool_iff in Hby; exfalso; exact (Qlt_not_le _ _ Hy Hby) |].
    apply Qopp_le_compat. apply Qmult_le_compat_r; [| discriminate].
    rewrite <- Zle_Qle. apply Qfloor_resp_le. lra.
  - apply Qle_trans with 0%Q;
      [now apply exact_round2_nonpos | now apply exact_round2_nonneg].
  - exfalso. lra.
  - unfold Reference.exact_round2.
    rewrite (proj2 (Qle_bool_iff 0 x) Hx), (proj2 (Qle_bool_iff 0 y) Hy).
    apply Qmult_le_compat_r; [| discriminate].
    rewrite <- Zle_Qle. apply Qfloor_resp_le. lra.
Qed.

End ExactArithmetic.

Lemma reference_reals_laws : SqliteRealLaws Reference.reals.
Proof.
  constructor; simpl.
  - intros x y Hxy. lra.
  - apply exact_sum_values.
  - intros l1 l2 z Hz. rewrite !exact_sum_app, exact_sum_cons, Hz. ring.
  - apply exact_sum_nonneg.
  - intros l x _ Hx. rewrite exact_sum_app, exact_sum_cons.
    unfold Reference.exact_sum at 3. simpl. lra.
  - apply exact_round2_monotone.
  - apply exact_round2_nonneg.
Defined.

Lemma hours_saved_floored_per_row_witness :
  exists q,
    Database.hours_saved (sq := Reference.reals) Examples.db_eighth = Some q
    /\ (q == real_round2 (SqliteReal := Reference.reals)
                (spec_hours_saved (sq := Reference.reals)
                   (sessions Examples.db_eighth)))%Q.
Proof.
  apply (proj1 (proj2 (proj2 (hours_saved_floored_per_row
                                reference_reals_laws Examples.db_eighth)))).
  discriminate.
Defined.

(** C6 as stated fails.  For one session of zero hours with an estimate of
    0.125, where the subtraction and the sum are exact and ROUND gives
    0.13, the sum is 0.125 and [hours_saved] is 0.13; for the empty store
    [hours_saved] is absent. *)
Lemma hours_saved_is_rounded :
  dict_get "hours_saved"
           (Database.get_stats (sq := Reference.reals) Examples.db_eighth)
    = Some (PyFloat (13 # 100))
  /\ (spec_hours_saved (sq := Reference.reals) (sessions Examples.db_eighth)
      == 1 # 8)%Q
  /\ ~ (13 # 100
        == spec_hours_saved (sq := Reference.reals)
             (sessions Examples.db_eighth))%Q
  /\ dict_get "hours_saved" (Database.get_stats (sq := Reference.reals) Sql.empty)
     = Some PyNone.
Proof.
  repeat split; try reflexivity. vm_compute. discriminate.
Qed.

(** ** Logging a session *)

Section Logging.
Context {rt : PyRuntime}.

(** [log_session] in terms of the calls it makes. *)
Lemma log_session_unfold (e : env) (s : SessionIn.t) (w : world) :
  Main.log_session e s (Some Main.API_KEY) w
  = match store_session e s (store w) with
    | Raise ex => (Raise ex, w)
    | Ok (sid, db') =>
        let w1 := {| store := db'; notify_queue := notify_queue w |} in
        if notable s then
          match message_for s with
          | Raise ex => (Raise ex, w1)
          | Ok msg => (Ok (logged sid), Main.notify_discord e msg w1)
          end
        else (Ok (logged sid), w1)
    end.
Proof. reflexivity. Qed.

Lemma notify_discord_store (e : env) (msg : string) (w : world) :
  store (Main.notify_discord e msg w) = store w.
Proof. unfold Main.notify_discord. now destruct (queue_fault e). Qed.

Lemma notify_discord_fault (e : env) (msg : string) (w : world) :
  queue_fault e = true -> Main.notify_discord e msg w = w.
Proof. unfold Main.notify_discord. now intros ->. Qed.

Lemma require_key_inv (key : option string) :
  Main.require_key key = Ok tt -> key = Some Main.API_KEY.
Proof.
  unfold Main.require_key. destruct key as [k |]; [| discriminate].
  destruct (String.eqb_spec k Main.API_KEY) as [-> | _]; [reflexivity | discriminate].
Qed.

Lemma log_session_ok_inv (e : env) (s : SessionIn.t) (key : option string)
    (w w' : world) (resp : pydict) :
  Main.log_session e s key w = (Ok resp, w') ->
  exists sid, store_session e s (store w) = Ok (sid, store w')
              /\ resp = logged sid.
Proof.
  intros H.
  assert (Hk : key = Some Main.API_KEY).
  { apply require_key_inv. unfold Main.log_session in H.
    destruct (Main.require_key key) as [[] | ex]; [reflexivity | discriminate]. }
  subst key. rewrite log_session_unfold in H.
  destruct (store_session e s (store w)) as [[sid db'] | ex]; [| discriminate].
  exists sid. simpl in H.
  destruct (notable s).
  - destruct (message_for s) as [msg | ex]; [| discriminate].
    inversion H; subst. now rewrite notify_discord_store.
  - now inversion H; subst.
Qed.

(** The row [save_session] writes. *)
Lemma save_session_row c p d t a m ts dt meta db sid db' :
  Database.save_session c p d t a m ts dt meta db = Ok (sid, db') ->
  exists day,
    match dt with
    | Some x => if Py.truthy_str x then day = x
                else Calendar.utc_date
                       (Py.or_int ts (Py.int_of_float (time_time c * 1000)))
                     = Ok day
    | None => Calendar.utc_date
                (Py.or_int ts (Py.int_of_float (time_time c * 1000))) = Ok day
    end
    /\ sessions db'
       = (sessions db ++
          [Row.mk sid p d t a m
                  (Py.or_int ts (Py.int_of_float (time_time c * 1000))) day
                  (match stored_metadata meta with
                   | PyStr text => Some text
                   | _ => None
                   end)
                  (datetime_now c)])%list.
Proof.
  intros H. apply save_session_inv in H as (day & Hday & _ & _ & _ & ->).
  exists day. split; [exact Hday | reflexivity].
Qed.

End Logging.

(** C8: when the append to the notification queue faults, the response and
    the store are those of the call without the fault and the queue is left
    as it was; for a session that was persisted and whose message was built,
    the request answers ok with the new id and the store holds the new
    row. *)
Theorem notify_fault_swallowed {rt : PyRuntime} (e : env) (s : SessionIn.t)
    (key : option string) (w : world) :
  queue_fault e = true ->
  fst (Main.log_session e s key w)
    = fst (Main.log_session (without_fault e) s key w)
  /\ store (snd (Main.log_session e s key w))
    = store (snd (Main.log_session (without_fault e) s key w))
  /\ notify_queue (snd (Main.log_session e s key w)) = notify_queue w
  /\ (forall sid db' msg,
        store_session e s (store w) = Ok (sid, db') ->
        notable s = true ->
        message_for s = Ok msg ->
        Main.log_session e s (Some Main.API_KEY) w
        = (Ok (logged sid), {| store := db'; notify_queue := notify_queue w |})).
Proof.
  intros Hfault.
  assert (Hgen :
    fst (Main.log_session e s key w)
      = fst (Main.log_session (without_fault e) s key w)
    /\ store (snd (Main.log_session e s key w))
      = store (snd (Main.log_session (without_fault e) s key w))
    /\ notify_queue (snd (Main.log_session e s key w)) = notify_queue w).
  { unfold Main.log_session.
    destruct (Main.require_key key) as [[] | ex]; [| repeat split].
    change (save_clock (without_fault e)) with (save_clock e).
    destruct (Database.save_session _ _ _ _ _ _ _ _ _ _) as [[sid db'] | ex];
      [| repeat split].
    destruct (Main.should_notify _ _ _); [| repeat split].
    destruct (Main.build_notify_message _ _ _ _ _) as [msg | ex]; [| repeat split].
    simpl. rewrite !notify_discord_store.
    rewrite (notify_discord_fault e msg _ Hfault). repeat split. }
  destruct Hgen as (H1 & H2 & H3). repeat split; try assumption.
  intros sid db' msg Hsave Hnot Hmsg.
  rewrite log_session_unfold, Hsave, Hnot, Hmsg. simpl.
  now rewrite (notify_discord_fault e msg _ Hfault).
Qed.

Lemma notify_fault_swallowed_witness :
  Main.log_session (rt := Reference.runtime) Examples.e_fault Examples.s_full
                   (Some Main.API_KEY) Examples.w0
  = (Ok (logged 1),
     {| store :=
          {| sessions :=
               [Row.mk 1 "alpha" (Some "report") "scan" 2 (Some 10%Q) 5
                       "2024-02-29" (Some (Reference.dumps (PyDict Examples.meta0)))
                       "2025-11-04 00:00:00"];
             sqlite_sequence := 1 |};
        notify_queue := "" |}).
Proof.
  eapply (notify_fault_swallowed (rt := Reference.runtime) Examples.e_fault
            Examples.s_full (Some Main.API_KEY) Examples.w0 eq_refl);
    reflexivity.
Defined.



(** * Further properties of the store *)

Section StoreIds.
Context {rt : PyRuntime}.

Lemma save_session_sequence c p d t a m ts dt meta db sid db' :
  Database.save_session c p d t a m ts dt meta db = Ok (sid, db') ->
  sid = sqlite_sequence db + 1 /\ sqlite_sequence db' = sid.
Proof.
  intros H. apply save_session_rows in H. tauto.
Qed.

Lemma evolves_sequence (db db' : database) :
  evolves db db' -> sqlite_sequence db <= sqlite_sequence db'.
Proof.
  induction 1 as [db | c p d t a m ts dt meta db db1 sid db2 _ IH Hsave
                  | sid db db1 db2 _ IH Hdel].
  - lia.
  - apply save_session_sequence in Hsave. lia.
  - apply delete_session_inv in Hdel as [_ ->]. exact IH.
Qed.

End StoreIds.

(** X1: on a table that keeps the invariant, a successful [save_session]
    returns an id larger than every id stored, appends one row carrying
    that id after the rows already there, and the invariant still holds. *)
Theorem save_session_fresh_id {rt : PyRuntime} c p d t a m ts dt meta
    (db : database) (sid : Z) (db' : database) :
  wf db ->
  Database.save_session c p d t a m ts dt meta db = Ok (sid, db') ->
  Forall (fun r => Row.id r < sid) (sessions db)
  /\ (exists r, sessions db' = (sessions db ++ [r])%list /\ Row.id r = sid)
  /\ wf db'.
Proof.
  intros Hwf Hsave. pose proof (save_session_wf _ _ _ _ _ _ _ _ _ _ _ _ Hwf Hsave).
  apply save_session_rows in Hsave as (-> & _ & Hrow).
  destruct Hwf as [_ Hb]. split; [| split; assumption].
  eapply Forall_impl; [| exact Hb]. simpl; intros; lia.
Qed.

Lemma save_session_fresh_id_witness :
  Forall (fun r => Row.id r < 3) (sessions Examples.db_ties).
Proof.
  apply (save_session_fresh_id (rt := Reference.runtime) Examples.c0 "gamma" None
           "manual" (1 # 4) None (Some 5) None None Examples.db_ties 3
           {| sessions :=
                [Examples.row1; Examples.row2;
                 Row.mk 3 "gamma" None "manual" (1 # 4) None 5 "1970-01-01" None
                        "2025-11-04 00:00:00"];
              sqlite_sequence := 3 |}
           wf_db_ties eq_refl).
Defined.

(** X2: an id is never handed out twice.  Whatever inserts and deletes
    follow a successful [save_session], a later successful [save_session]
    returns a strictly larger id, also when the first session has been
    deleted in between. *)
Theorem ids_never_reused {rt : PyRuntime} c p d t a m ts dt meta
    c' p' d' t' a' m' ts' dt' meta'
    (db db1 db2 db3 : database) (sid sid' : Z) :
  Database.save_session c p d t a m ts dt meta db = Ok (sid, db1) ->
  evolves db1 db2 ->
  Database.save_session c' p' d' t' a' m' ts' dt' meta' db2 = Ok (sid', db3) ->
  sid < sid'.
Proof.
  intros H1 Hev H2.
  apply save_session_sequence in H1 as [_ Hs1].
  apply save_session_sequence in H2 as [-> _].
  apply evolves_sequence in Hev. lia.
Qed.

Lemma ids_never_reused_witness : 1 < 2.
Proof.
  apply (ids_never_reused (rt := Reference.runtime)
           Examples.c0 "alpha" None "manual" (1 # 4) None (Some 5) None None
           Examples.c0 "beta" None "manual" (1 # 4) None (Some 5) None None
           Sql.empty
           {| sessions := [Examples.row1]; sqlite_sequence := 1 |}
           {| sessions := []; sqlite_sequence := 1 |}
           {| sessions :=
                [Row.mk 2 "beta" None "manual" (1 # 4) None 5 "1970-01-01" None
                        "2025-11-04 00:00:00"];
              sqlite_sequence := 2 |}
           1 2 eq_refl).
  - apply (evolves_delete 1 _ {| sessions := [Examples.row1];
                                 sqlite_sequence := 1 |});
      [apply evolves_refl | reflexivity].
  - reflexivity.
Defined.

Lemma save_then_delete_rows {rt : PyRuntime} c p d t a m ts dt meta
    (db : database) (sid : Z) (db' : database) :
  wf db ->
  Database.save_session c p d t a m ts dt meta db = Ok (sid, db') ->
  Database.delete_session sid db' = Ok (Sql.delete_where_id sid db')
  /\ sessions (Sql.delete_where_id sid db') = sessions db.
Proof.
  intros [_ Hb] Hsave.
  split; [apply delete_session_fits; exact (save_session_id_fits _ _ _ _ _ _ _ _ _ _ _ _ Hsave) |].
  apply save_session_rows in Hsave as (-> & Hseq & r & Hrows & Hid).
  simpl. rewrite Hrows, filter_app. simpl. rewrite Hid, Z.eqb_refl. simpl.
  rewrite app_nil_r. apply filter_other_ids_absent.
  intros Hin. apply in_map_iff in Hin as (x & Hx & Hxl).
  rewrite Forall_forall in Hb. specialize (Hb x Hxl). lia.
Qed.

(** X3: deleting the session just saved returns, gives back the rows as
    they were before the insert, and leaves the AUTOINCREMENT counter
    advanced. *)
Theorem save_then_delete {rt : PyRuntime} c p d t a m ts dt meta
    (db : database) (sid : Z) (db' : database) :
  wf db ->
  Database.save_session c p d t a m ts dt meta db = Ok (sid, db') ->
  exists db'',
    Database.delete_session sid db' = Ok db''
    /\ sessions db'' = sessions db
    /\ sqlite_sequence db'' = sqlite_sequence db + 1.
Proof.
  intros Hwf Hsave.
  destruct (save_then_delete_rows _ _ _ _ _ _ _ _ _ _ _ _ Hwf Hsave) as [Hdel Hrows].
  exists (Sql.delete_where_id sid db'). repeat split; try assumption.
  apply save_session_sequence in Hsave as [-> Hseq]. exact Hseq.
Qed.

Lemma save_then_delete_witness :
  exists db'',
    Database.delete_session 3
      {| sessions :=
           [Examples.row1; Examples.row2;
            Row.mk 3 "gamma" None "manual" (1 # 4) None 5 "1970-01-01"
                   None "2025-11-04 00:00:00"];
         sqlite_sequence := 3 |} = Ok db''
    /\ sessions db'' = sessions Examples.db_ties
    /\ sqlite_sequence db'' = sqlite_sequence Examples.db_ties + 1.
Proof.
  apply (save_then_delete (rt := Reference.runtime) Examples.c0 "gamma" None
           "manual" (1 # 4) None (Some 5) None None Examples.db_ties 3 _
           wf_db_ties eq_refl).
Defined.

Lemma sorted_ids_NoDup (l : list Row.t) :
  StronglySorted id_lt l -> NoDup (map Row.id l).
Proof.
  induction 1 as [| x l Hs IH Hx]; simpl; constructor; [| exact IH].
  intros Hin. apply in_map_iff in Hin as (y & Hy & Hyl).
  rewrite Forall_forall in Hx. specialize (Hx y Hyl). unfold id_lt in Hx. lia.
Qed.

(** X4: every table built from a fresh file by inserts and deletes has
    pairwise distinct ids, all between 1 and the AUTOINCREMENT counter. *)
Theorem reachable_ids {rt : PyRuntime} (db : database) :
  reachable db ->
  NoDup (map Row.id (sessions db))
  /\ Forall (fun r => 1 <= Row.id r <= sqlite_sequence db) (sessions db).
Proof.
  intros Hr.
  assert (Hinv : 0 <= sqlite_sequence db
                 /\ Forall (fun r => 1 <= Row.id r <= sqlite_sequence db)
                           (sessions db)).
  { induction Hr as [| c p d t a m ts dt meta db sid db' _ IH Hsave
                     | sid db db' _ IH Hdel].
    - split; [simpl; lia | constructor].
    - destruct IH as [Hz Hall].
      apply save_session_rows in Hsave as (-> & Hseq & r & Hrows & Hid).
      rewrite Hrows, Hseq. split; [lia |].
      apply Forall_app; split.
      + eapply Forall_impl; [| exact Hall]. simpl; intros; lia.
      + repeat constructor; lia.
    - destruct IH as [Hz Hall].
      apply delete_session_inv in Hdel as [_ ->].
      split; [exact Hz |]. simpl.
      rewrite Forall_forall in *. intros r Hin.
      apply Hall. apply filter_In in Hin. tauto. }
  split; [| apply Hinv].
  apply reachable_wf in Hr as [Hs _]. now apply sorted_ids_NoDup.
Qed.

Lemma reachable_ids_witness :
  NoDup (map Row.id (sessions Examples.db_ties))
  /\ Forall (fun r => 1 <= Row.id r <= sqlite_sequence Examples.db_ties)
            (sessions Examples.db_ties).
Proof.
  apply (reachable_ids (rt := Reference.runtime) Examples.db_ties).
  apply (reach_save Examples.c0 "beta" None "manual" (1 # 4) None (Some 5) None
           None {| sessions := [Examples.row1]; sqlite_sequence := 1 |} 2).
  - apply (reach_save Examples.c0 "alpha" None "manual" (1 # 4) None (Some 5)
             None None Sql.empty 1); [apply reach_init | reflexivity].
  - reflexivity.
Defined.



(** ** Listing, further *)

Lemma order_by_newest (l : list Row.t) (r : Row.t) :
  Forall (fun x => Row.timestamp x < Row.timestamp r) l ->
  Sql.order_by_timestamp_desc (l ++ [r]) = r :: Sql.order_by_timestamp_desc l.
Proof.
  induction 1 as [| x l Hx _ IH]; simpl; [reflexivity |].
  rewrite IH. simpl.
  destruct (Z.ltb_spec (Row.timestamp x) (Row.timestamp r)); [reflexivity | lia].
Qed.

Lemma select_sessions_length (limit : Z) (db : database) :
  length (Database.select_sessions limit db)
  = if limit <? 0 then length (sessions db)
    else Nat.min (Z.to_nat limit) (length (sessions db)).
Proof.
  unfold Database.select_sessions, Sql.limit_rows.
  destruct (limit <? 0); [| rewrite length_firstn];
    now rewrite (Permutation_length (order_by_perm _)).
Qed.

(** X6: for a limit within the signed 64-bit range [get_sessions] returns
    as many records as the smaller of the limit and the number of sessions
    stored, and all of them for a negative limit, so limit 0 and the empty
    store both list nothing; for a limit outside the range it raises
    OverflowError. *)
Theorem get_sessions_length (limit : Z) (db : database) :
  (Sql.fits_int64 limit = true ->
     exists l,
       Database.get_sessions limit db = Ok l
       /\ length l = if limit <? 0 then length (sessions db)
                     else Nat.min (Z.to_nat limit) (length (sessions db)))
  /\ (Sql.fits_int64 limit = false ->
        Database.get_sessions limit db = Raise OverflowError).
Proof.
  split; [| apply get_sessions_overflow].
  intros Hfit. eexists. split; [now apply get_sessions_fits |].
  rewrite length_map. apply select_sessions_length.
Qed.

(** X7: when the limit fits 64 bits and is negative or at least the number
    of stored sessions, the listing holds every stored session exactly
    once. *)
Theorem get_sessions_all (limit : Z) (db : database) :
  Sql.fits_int64 limit = true ->
  limit < 0 \/ Z.of_nat (length (sessions db)) <= limit ->
  exists l,
    Database.get_sessions limit db = Ok l
    /\ Permutation l (map Database.dict_of_row (sessions db)).
Proof.
  intros Hfit Hl. eexists. split; [now apply get_sessions_fits |].
  unfold Database.select_sessions. rewrite limit_rows_all.
  - apply Permutation_map, order_by_perm.
  - destruct Hl as [Hl | Hl]; [now left | right].
    now rewrite (Permutation_length (order_by_perm _)).
Qed.

Lemma get_sessions_all_witness :
  exists l,
    Database.get_sessions 200 Examples.db_ties = Ok l
    /\ Permutation l (map Database.dict_of_row (sessions Examples.db_ties)).
Proof.
  apply (get_sessions_all 200 Examples.db_ties eq_refl). right. simpl. lia.
Defined.

(** X8: a session saved with a timestamp larger than every stored one
    comes first in the next listing, for every limit within the signed
    64-bit range other than 0. *)
Theorem newest_session_listed_first {rt : PyRuntime} c p d t a m ts dt meta
    (db : database) (sid : Z) (db' : database) (limit : Z) :
  Database.save_session c p d t a m ts dt meta db = Ok (sid, db') ->
  Forall (fun x => Row.timestamp x < stored_timestamp c ts) (sessions db) ->
  Sql.fits_int64 limit = true ->
  limit <> 0 ->
  exists first rest,
    Database.get_sessions limit db' = Ok (first :: rest)
    /\ dict_get "id" first = Some (PyInt sid)
    /\ dict_get "timestamp" first = Some (PyInt (stored_timestamp c ts)).
Proof.
  intros Hsave Hnew Hfit Hl.
  apply save_session_row in Hsave as (day & _ & Hrows).
  rewrite (get_sessions_fits limit db' Hfit).
  unfold Database.select_sessions.
  rewrite Hrows, order_by_newest by exact Hnew.
  unfold Sql.limit_rows. destruct (Z.ltb_spec limit 0) as [Hneg | Hpos].
  - simpl. eexists _, _. repeat split.
  - destruct (Z.to_nat limit) as [| n] eqn:Hn; [lia |].
    simpl. eexists _, _. repeat split.
Qed.

Lemma newest_session_listed_first_witness :
  exists first rest,
    Database.get_sessions 1
      {| sessions :=
           [Examples.row1; Examples.row2;
            Row.mk 3 "gamma" None "manual" (1 # 4) None 9 "1970-01-01" None
                   "2025-11-04 00:00:00"];
         sqlite_sequence := 3 |} = Ok (first :: rest)
    /\ dict_get "id" first = Some (PyInt 3)
    /\ dict_get "timestamp" first = Some (PyInt 9).
Proof.
  apply (newest_session_listed_first (rt := Reference.runtime) Examples.c0
           "gamma" None "manual" (1 # 4) None (Some 9) None None
           Examples.db_ties 3 _ 1 eq_refl).
  - repeat constructor.
  - reflexivity.
  - discriminate.
Defined.

Lemma deleted_rows_not_listed (sid limit : Z) (db : database)
    (l : list pydict) (d : pydict) :
  Database.get_sessions limit (Sql.delete_where_id sid db) = Ok l ->
  In d l ->
  dict_get "id" d <> Some (PyInt sid).
Proof.
  intros Hget Hd. apply get_sessions_inv in Hget as [_ ->].
  apply in_map_iff in Hd as (r & <- & Hr).
  unfold Database.select_sessions in Hr.
  destruct (limit_rows_split limit
              (Sql.order_by_timestamp_desc
                 (sessions (Sql.delete_where_id sid db)))) as [rest Hsplit].
  assert (Hin : In r (sessions (Sql.delete_where_id sid db))).
  { eapply Permutation_in; [apply order_by_perm |].
    rewrite Hsplit. apply in_or_app; now left. }
  simpl in Hin. apply filter_In in Hin as [_ Hne].
  simpl. intros Heq. inversion Heq as [Hid].
  rewrite Hid, Z.eqb_refl in Hne. discriminate.
Qed.

(** X9: after a [delete_session] that returned, no listing, whatever its
    limit, holds a record with the deleted id, and a stored session with
    another id is still in the unbounded listing.  A [delete_session] that
    raises was given an id outside the signed 64-bit range. *)
Theorem deleted_session_not_listed (sid : Z) (db : database) :
  (forall db' limit l d,
     Database.delete_session sid db = Ok db' ->
     Database.get_sessions limit db' = Ok l ->
     In d l ->
     dict_get "id" d <> Some (PyInt sid))
  /\ (forall db' r,
        Database.delete_session sid db = Ok db' ->
        In r (sessions db) -> Row.id r <> sid ->
        exists l,
          Database.get_sessions (-1) db' = Ok l
          /\ In (Database.dict_of_row r) l)
  /\ (forall ex,
        Database.delete_session sid db = Raise ex ->
        ex = OverflowError /\ Sql.fits_int64 sid = false).
Proof.
  split; [| split].
  - intros db' limit l d Hdel Hget Hd.
    apply delete_session_inv in Hdel as [_ ->].
    exact (deleted_rows_not_listed sid limit db l d Hget Hd).
  - intros db' r Hdel Hin Hne.
    apply delete_session_inv in Hdel as [_ ->].
    eexists. split; [now apply get_sessions_fits |].
    unfold Database.select_sessions.
    apply in_map. rewrite limit_rows_all by (left; lia).
    eapply Permutation_in; [symmetry; apply order_by_perm |].
    simpl. apply filter_In. split; [exact Hin |].
    destruct (Z.eqb_spec (Row.id r) sid); [contradiction | reflexivity].
  - intros ex. unfold Database.delete_session.
    destruct (Sql.fits_int64 sid); [discriminate |].
    intros H; inversion H; now split.
Qed.

(** ** Deleting, further *)

Lemma delete_where_id_twice (a : Z) (db : database) :
  Sql.delete_where_id a (Sql.delete_where_id a db) = Sql.delete_where_id a db.
Proof.
  unfold Sql.delete_where_id; simpl. f_equal.
  induction (sessions db) as [| r l IH]; simpl; [reflexivity |].
  destruct (Z.eqb_spec (Row.id r) a) as [Heq | Hne]; simpl; [exact IH |].
  destruct (Z.eqb_spec (Row.id r) a); [contradiction |].
  simpl. now f_equal.
Qed.

Lemma delete_where_id_swap (a b : Z) (db : database) :
  Sql.delete_where_id a (Sql.delete_where_id b db)
  = Sql.delete_where_id b (Sql.delete_where_id a db).
Proof.
  unfold Sql.delete_where_id; simpl. f_equal.
  induction (sessions db) as [| r l IH]; simpl; [reflexivity |].
  destruct (Z.eqb_spec (Row.id r) a) as [Ha | Ha],
           (Z.eqb_spec (Row.id r) b) as [Hb | Hb]; simpl;
    rewrite ?(proj2 (Z.eqb_eq _ _) Ha), ?(proj2 (Z.eqb_eq _ _) Hb),
            ?(proj2 (Z.eqb_neq _ _) Ha), ?(proj2 (Z.eqb_neq _ _) Hb);
    simpl; try exact IH; now f_equal.
Qed.

(** X10: deleting the same id a second time gives what deleting it once
    gives, and two deletes one after the other give the same outcome in
    either order: the same table when both ids fit 64 bits, OverflowError
    when one does not. *)
Theorem delete_session_idempotent_commutes (a b : Z) (db : database) :
  (db1 <- Database.delete_session a db ;; Database.delete_session a db1)
    = Database.delete_session a db
  /\ (db1 <- Database.delete_session b db ;; Database.delete_session a db1)
    = (db1 <- Database.delete_session a db ;; Database.delete_session b db1).
Proof.
  unfold Database.delete_session, bind.
  destruct (Sql.fits_int64 a), (Sql.fits_int64 b); split;
    try reflexivity; f_equal;
    [apply delete_where_id_twice | apply delete_where_id_swap
     | apply delete_where_id_twice].
Qed.


(** ** Statistics, further *)

Section StatsMore.

Lemma existsb_eqb_In (s : string) (l : list string) :
  existsb (String.eqb s) l = true <-> In s l.
Proof.
  rewrite existsb_exists. split.
  - intros (x & Hx & Heq). apply String.eqb_eq in Heq. now subst.
  - intros Hin. exists s. split; [exact Hin | apply String.eqb_refl].
Qed.

Lemma distinct_In (l : list string) (x : string) :
  In x (Sql.distinct l) <-> In x l.
Proof.
  induction l as [| s l IH]; simpl; [tauto |].
  destruct (existsb (String.eqb s) l) eqn:He.
  - apply existsb_eqb_In in He. rewrite IH. split; [tauto |].
    intros [<- | H]; assumption.
  - simpl. rewrite IH. tauto.
Qed.

Lemma distinct_NoDup (l : list string) : NoDup (Sql.distinct l).
Proof.
  induction l as [| s l IH]; simpl; [constructor |].
  destruct (existsb (String.eqb s) l) eqn:He; [exact IH |].
  constructor; [| exact IH].
  rewrite distinct_In. intros Hin. apply existsb_eqb_In in Hin. congruence.
Qed.

Lemma distinct_snoc_length (l : list string) (p : string) :
  length (Sql.distinct (l ++ [p]))
  = (length (Sql.distinct l)
     + if existsb (String.eqb p) l then 0 else 1)%nat.
Proof.
  induction l as [| s l IH]; simpl; [reflexivity |].
  rewrite existsb_app. simpl. rewrite orb_false_r.
  rewrite (String.eqb_sym p s).
  destruct (existsb (String.eqb s) l) eqn:Hs; simpl.
  - rewrite IH. destruct (String.eqb s p) eqn:Hsp; [| reflexivity].
    apply String.eqb_eq in Hsp. subst p. now rewrite Hs.
  - destruct (String.eqb s p) eqn:Hsp; simpl.
    + apply String.eqb_eq in Hsp. subst p. rewrite IH, Hs. lia.
    + rewrite IH. reflexivity.
Qed.

End StatsMore.

(** X11: [total_sessions] is the number of stored rows: a successful
    [save_session] raises it by one, a [delete_session] of the id of a
    stored session lowers it by one and a [delete_session] of an id that
    is not stored leaves it. *)
Theorem total_sessions_counts {rt : PyRuntime} (db : database) :
  wf db ->
  (forall c p d t a m ts dt meta sid db',
     Database.save_session c p d t a m ts dt meta db = Ok (sid, db') ->
     Database.total_sessions db' = Database.total_sessions db + 1)
  /\ (forall r db', In r (sessions db) ->
        Database.delete_session (Row.id r) db = Ok db' ->
        Database.total_sessions db' = Database.total_sessions db - 1)
  /\ (forall sid db', ~ In sid (map Row.id (sessions db)) ->
        Database.delete_session sid db = Ok db' ->
        Database.total_sessions db' = Database.total_sessions db).
Proof.
  intros [Hs _]. unfold Database.total_sessions. repeat split.
  - intros c p d t a m ts dt meta sid db' Hsave.
    apply save_session_rows in Hsave as (_ & _ & r & -> & _).
    rewrite length_app. simpl. lia.
  - intros r db' Hin Hdel. apply delete_session_inv in Hdel as [_ ->]. simpl.
    destruct (filter_other_ids_present r _ Hs Hin) as (l1 & l2 & -> & ->).
    rewrite !length_app. simpl. lia.
  - intros sid db' Hn Hdel. apply delete_session_inv in Hdel as [_ ->]. simpl.
    now rewrite filter_other_ids_absent.
Qed.

Lemma total_sessions_counts_witness :
  Database.total_sessions (Sql.delete_where_id 2 Examples.db_ties)
  = Database.total_sessions Examples.db_ties - 1.
Proof.
  exact (proj1 (proj2 (total_sessions_counts (rt := Reference.runtime)
                         Examples.db_ties wf_db_ties))
           Examples.row2 _ (or_intror (or_introl eq_refl)) eq_refl).
Defined.


(** X13: [project_count] is the number of different project names stored:
    it equals the length of any duplicate-free list holding exactly the
    project names of the stored sessions, and it never exceeds
    [total_sessions]. *)
Theorem project_count_distinct (db : database) (names : list string) :
  NoDup names ->
  (forall p, In p names <-> exists r, In r (sessions db) /\ Row.project r = p) ->
  Database.project_count db = Z.of_nat (length names)
  /\ Database.project_count db <= Database.total_sessions db.
Proof.
  intros Hnd Hnames. unfold Database.project_count, Database.total_sessions.
  assert (Hperm : Permutation (Sql.distinct (map Row.project (sessions db))) names).
  { apply NoDup_Permutation; [apply distinct_NoDup | exact Hnd |].
    intros p. rewrite distinct_In, Hnames, in_map_iff.
    split; intros (r & H1 & H2); exists r; tauto. }
  split; [now rewrite (Permutation_length Hperm) |].
  rewrite <- (length_map Row.project (sessions db)).
  apply inj_le. apply NoDup_incl_length; [apply distinct_NoDup |].
  intros p Hp. exact (proj1 (distinct_In _ _) Hp).
Qed.

Lemma project_count_distinct_witness :
  Database.project_count Examples.db_ties = Z.of_nat (length ["alpha"; "beta"])
  /\ Database.project_count Examples.db_ties
     <= Database.total_sessions Examples.db_ties.
Proof.
  apply (project_count_distinct Examples.db_ties ["alpha"; "beta"]).
  - repeat constructor; simpl; intros H;
      repeat (destruct H as [H | H]; try discriminate); exact H.
  - intros p; simpl; split.
    + intros [<- | [<- | []]];
        [exists Examples.row1 | exists Examples.row2]; simpl; auto.
    + intros (r & [<- | [<- | []]] & <-); simpl; auto.
Defined.

(** X14: logging a session for a project that already has one leaves
    [project_count] as it is; the first session of a project raises it by
    one. *)
Theorem project_count_after_save {rt : PyRuntime} c p d t a m ts dt meta
    (db : database) (sid : Z) (db' : database) :
  Database.save_session c p d t a m ts dt meta db = Ok (sid, db') ->
  Database.project_count db'
  = Database.project_count db
    + (if existsb (String.eqb p) (map Row.project (sessions db)) then 0 else 1).
Proof.
  intros Hsave. apply save_session_row in Hsave as (day & _ & Hrows).
  unfold Database.project_count. rewrite Hrows, map_app. simpl.
  rewrite distinct_snoc_length.
  destruct (existsb (String.eqb p) (map Row.project (sessions db))); lia.
Qed.

Lemma project_count_after_save_witness :
  Database.project_count
    {| sessions :=
         [Examples.row1; Examples.row2;
          Row.mk 3 "alpha" None "manual" (1 # 4) None 5 "1970-01-01" None
                 "2025-11-04 00:00:00"];
       sqlite_sequence := 3 |}
  = Database.project_count Examples.db_ties + 0.
Proof.
  apply (project_count_after_save (rt := Reference.runtime) Examples.c0 "alpha"
           None "manual" (1 # 4) None (Some 5) None None Examples.db_ties 3 _
           eq_refl).
Defined.

(** X15: logging one more session never lowers [hours_saved]. *)
Theorem hours_saved_monotone {rt : PyRuntime} {sq : SqliteReal}
    (laws : SqliteRealLaws sq) c p d t a m ts dt meta
    (db : database) (sid : Z) (db' : database) (q : Q) :
  Database.save_session c p d t a m ts dt meta db = Ok (sid, db') ->
  Database.hours_saved db = Some q ->
  exists q', Database.hours_saved db' = Some q' /\ (q <= q')%Q.
Proof.
  intros Hsave Hq. apply save_session_row in Hsave as (day & _ & Hrows).
  unfold Database.hours_saved, Sql.sum in *. rewrite Hrows.
  destruct (sessions db) as [| x l] eqn:Hl; [discriminate |].
  simpl in Hq. inversion Hq; subst q. simpl.
  eexists; split; [reflexivity |].
  match goal with |- context [(l ++ [?r])%list] => set (new := r) end.
  change (Database.saved_case x :: map Database.saved_case (l ++ [new]))
    with (map Database.saved_case ((x :: l) ++ [new])).
  change (Database.saved_case x :: map Database.saved_case l)
    with (map Database.saved_case (x :: l)).
  rewrite map_app. simpl map at 2.
  apply real_round2_monotone, real_sum_grows;
    [exact (saved_cases_nonneg (x :: l)) | apply saved_case_nonneg].
Qed.

Lemma hours_saved_monotone_witness :
  exists q',
    Database.hours_saved (sq := Reference.reals)
      {| sessions :=
           [Examples.row_eighth;
            Row.mk 2 "beta" None "manual" 1 (Some 3%Q) 5 "1970-01-01" None
                   "2025-11-04 00:00:00"];
         sqlite_sequence := 2 |} = Some q'
    /\ (13 # 100 <= q')%Q.
Proof.
  apply (hours_saved_monotone (rt := Reference.runtime) reference_reals_laws
           Examples.c0 "beta" None "manual" 1 (Some 3%Q) (Some 5) None None
           Examples.db_eighth 2 _ (13 # 100) eq_refl eq_refl).
Defined.

(** * Further properties of the gateway *)

(** ** The notification message, further *)

Section Message.
Context {rt : PyRuntime}.

Lemma estimate_guard_iff (est : Q) :
  Py.truthy_float est && Py.float_gt est 0 = true <-> (0 < est)%Q.
Proof.
  split; [| apply positive_truthy].
  intros H. apply andb_prop in H as [_ Hgt].
  unfold Py.float_gt in Hgt. apply negb_true_iff in Hgt.
  apply Qnot_le_lt. intros Hle. apply Qle_bool_iff in Hle. congruence.
Qed.

Lemma nonzero_num (y : Q) : ~ (y == 0)%Q -> (Qnum y =? 0) = false.
Proof.
  unfold Qeq. destruct y as [n d]; simpl. intros H.
  destruct (Z.eqb_spec n 0) as [-> | _]; [| reflexivity].
  exfalso. apply H. lia.
Qed.

Lemma truediv_finite (x y : Q) :
  ~ (y == 0)%Q -> (Qabs (x / y) < Py.overflow_threshold)%Q ->
  Py.truediv x y = Ok (Py.Finite (Py.nearest_double (x / y))).
Proof.
  intros Hy Hlt. unfold Py.truediv. rewrite (nonzero_num y Hy).
  destruct (Qle_bool Py.overflow_threshold (Qabs (x / y))) eqn:Hb;
    [| reflexivity].
  apply Qle_bool_iff in Hb. exfalso. exact (Qlt_not_le _ _ Hlt Hb).
Qed.


End Message.


(** X17: the message for a positive estimate, non-zero hours and a
    quotient within the range of a double is the message without estimate
    followed by the clause with the quotient, as the double the division
    gives, rounded to an integer; an estimate that is zero or negative
    gives the message without estimate; an empty description gives the
    message the task type would give in its place. *)
Theorem build_notify_message_clause {rt : PyRuntime}
    (project description task_type : string) (actual_hours : Q) :
  exists base,
    Main.build_notify_message project description task_type actual_hours None
      = Ok base
    /\ (forall est, (est <= 0)%Q ->
          Main.build_notify_message project description task_type actual_hours
                                    (Some est) = Ok base)
    /\ (forall est, (0 < est)%Q -> ~ (actual_hours == 0)%Q ->
          (Qabs (est / actual_hours) < Py.overflow_threshold)%Q ->
          Main.build_notify_message project description task_type actual_hours
                                    (Some est)
          = Ok (base ++ " · **"
                     ++ Py.int_str
                          (Py.round (Py.nearest_double (est / actual_hours)))
                     ++ "x faster than manual**"))
    /\ Main.build_notify_message project "" task_type actual_hours None
       = Main.build_notify_message project task_type task_type actual_hours None.
Proof.
  eexists. split; [reflexivity |]. split; [| split].
  - intros est Hle. unfold Main.build_notify_message.
    destruct (Py.truthy_float est && Py.float_gt est 0) eqn:Hg; [| reflexivity].
    apply estimate_guard_iff in Hg. exfalso. exact (Qlt_not_le _ _ Hg Hle).
  - intros est Hpos Hnz Hfin. unfold Main.build_notify_message.
    rewrite (positive_truthy est Hpos), (truediv_finite est actual_hours Hnz Hfin).
    reflexivity.
  - unfold Main.build_notify_message. simpl.
    now destruct (Py.truthy_str task_type).
Qed.

(** ** The unit of the duration *)

Section Duration.

Lemma round_ge_iff (q : Q) (n : Z) :
  Z.odd n = true ->
  (n + 1 <= Py.round q <-> (inject_Z n + (1 # 2) <= q)%Q).
Proof.
  intros Hodd. unfold Py.round.
  pose proof (Qfloor_le q) as Hlo. pose proof (Qlt_floor q) as Hhi.
  set (f := Qfloor q) in *.
  rewrite inject_Z_plus in Hhi. change (inject_Z 1) with 1%Q in Hhi.
  destruct (Z.lt_trichotomy f n) as [Hlt | [Heq | Hgt]].
  - assert (Hq : (inject_Z f + 1 <= inject_Z n)%Q).
    { change 1%Q with (inject_Z 1). rewrite <- inject_Z_plus, <- Zle_Qle. lia. }
    split.
    + intros H. exfalso.
      destruct (Qcompare_spec (q - inject_Z f) (1 # 2)); [destruct (Z.even f) | |]; lia.
    + intros H. exfalso. lra.
  - subst n. rewrite <- Z.negb_odd, Hodd. simpl.
    destruct (Qcompare_spec (q - inject_Z f) (1 # 2)) as [He | Hl | Hg].
    + split; [intros _; lra | intros _; lia].
    + split; [intros H; lia | intros H; lra].
    + split; [intros _; lra | intros _; lia].
  - assert (Hq : (inject_Z n + 1 <= inject_Z f)%Q).
    { change 1%Q with (inject_Z 1). rewrite <- inject_Z_plus, <- Zle_Qle. lia. }
    split.
    + intros _. lra.
    + intros _.
      destruct (Qcompare_spec (q - inject_Z f) (1 # 2)); [destruct (Z.even f) | |]; lia.
Qed.

Lemma minutes_below_sixty (actual_hours : Q) :
  Py.float_lt (Py.round1 (actual_hours * 60)) 60 = true
  <-> (actual_hours < 1199 # 1200)%Q.
Proof.
  unfold Py.float_lt, Py.round1. rewrite negb_true_iff.
  set (n := Py.round (actual_hours * 60 * 10)).
  pose proof (round_ge_iff (actual_hours * 60 * 10) 599 eq_refl) as Hr.
  fold n in Hr. change (599 + 1) with 600 in Hr.
  split.
  - intros Hb. apply Qnot_le_lt. intros Hge.
    assert (Hn : 600 <= n).
    { apply Hr. change (inject_Z 599) with 599%Q. lra. }
    assert (Hle : (60 <= inject_Z n / 10)%Q).
    { apply Qle_shift_div_l; [reflexivity |].
      rewrite Zle_Qle in Hn. change (inject_Z 600) with 600%Q in Hn. lra. }
    apply Qle_bool_iff in Hle. congruence.
  - intros Hlt. destruct (Qle_bool 60 (inject_Z n / 10)) eqn:Hb; [| reflexivity].
    apply Qle_bool_iff in Hb. exfalso.
    assert (Hn : 600 <= n).
    { rewrite Zle_Qle. change (inject_Z 600) with 600%Q.
      assert (Heq : (inject_Z n / 10 * 10 == inject_Z n)%Q) by field.
      apply (Qmult_le_compat_r _ _ 10) in Hb; [| discriminate].
      rewrite Heq in Hb. lra. }
    apply Hr in Hn. change (inject_Z 599) with 599%Q in Hn. lra.
Qed.

End Duration.

(** X18: the duration is written in minutes when the actual hours are
    below 1199/1200 of an hour (59.95 minutes), and in hours from there on:
    what rounds to 60.0 minutes is shown as hours. *)
Theorem duration_unit {rt : PyRuntime}
    (project description task_type : string) (actual_hours : Q) :
  Main.build_notify_message project description task_type actual_hours None
  = Ok ("📋 **WorkLog** · `" ++ project ++ "` · "
        ++ (if Py.truthy_str description then description else task_type)
        ++ " · ⏱ "
        ++ (if Qle_bool (1199 # 1200) actual_hours
            then float_str (Py.round1 actual_hours) ++ "h"
            else float_str (Py.round1 (actual_hours * 60)) ++ "m")).
Proof.
  unfold Main.build_notify_message.
  destruct (Qle_bool (1199 # 1200) actual_hours) eqn:Hb.
  - apply Qle_bool_iff in Hb.
    destruct (Py.float_lt (Py.round1 (actual_hours * 60)) 60) eqn:Hlt;
      [| reflexivity].
    apply minutes_below_sixty in Hlt. exfalso. exact (Qlt_not_le _ _ Hlt Hb).
  - assert (Hlt : (actual_hours < 1199 # 1200)%Q).
    { apply Qnot_le_lt. intros Hle. apply Qle_bool_iff in Hle. congruence. }
    apply minutes_below_sixty in Hlt. now rewrite Hlt.
Qed.

(** ** Logging a session, further *)

Lemma key_cases (key : option string) :
  key = Some Main.API_KEY \/ key <> Some Main.API_KEY.
Proof.
  destruct key as [k |]; [| right; discriminate].
  destruct (String.eqb_spec k Main.API_KEY) as [-> | Hne]; [now left | right].
  intros H; inversion H; contradiction.
Qed.





(** X20: what POST /api/log does to the queue file.  The content already
    there is kept and at most one line is added; a request for a session
    that is not notable adds nothing; a request answered ok for a notable
    session adds the line of its message unless the append faults. *)
Theorem log_session_queue {rt : PyRuntime} (e : env) (s : SessionIn.t)
    (key : option string) (w : world) :
  (notify_queue (snd (Main.log_session e s key w)) = notify_queue w
   \/ exists msg,
        message_for s = Ok msg
        /\ notify_queue (snd (Main.log_session e s key w))
           = notify_queue w ++ queue_line e msg)
  /\ (notable s = false ->
        notify_queue (snd (Main.log_session e s key w)) = notify_queue w)
  /\ (forall sid,
        fst (Main.log_session e s key w) = Ok (logged sid) ->
        notable s = true -> queue_fault e = false ->
        exists msg,
          message_for s = Ok msg
          /\ notify_queue (snd (Main.log_session e s key w))
             = notify_queue w ++ queue_line e msg).
Proof.
  destruct (key_cases key) as [-> | Hk].
  - rewrite log_session_unfold.
    destruct (store_session e s (store w)) as [[sid db'] | ex];
      [| simpl; repeat split; auto; discriminate].
    simpl. destruct (notable s).
    + destruct (message_for s) as [msg | ex];
        [| simpl; repeat split; auto; discriminate].
      simpl. unfold Main.notify_discord.
      destruct (queue_fault e); simpl.
      * repeat split; auto; discriminate.
      * split; [right; now exists msg |].
        split; [discriminate |]. intros _ _ _ _. now exists msg.
    + simpl. repeat split; auto; discriminate.
  - unfold Main.log_session. rewrite (require_key_rejects key Hk).
    unfold unauthorized; simpl. repeat split; auto; discriminate.
Qed.

(** X21: two requests answered ok one after the other get consecutive
    ids. *)
Theorem log_session_consecutive_ids {rt : PyRuntime} (e1 e2 : env)
    (s1 s2 : SessionIn.t) (k1 k2 : option string) (w w1 w2 : world)
    (a b : Z) :
  Main.log_session e1 s1 k1 w = (Ok (logged a), w1) ->
  Main.log_session e2 s2 k2 w1 = (Ok (logged b), w2) ->
  b = a + 1.
Proof.
  intros H1 H2.
  apply log_session_ok_inv in H1 as (x & Hs1 & Hx).
  apply log_session_ok_inv in H2 as (y & Hs2 & Hy).
  inversion Hx; subst x. inversion Hy; subst y.
  unfold store_session in *.
  apply save_session_sequence in Hs1 as [_ Hseq].
  apply save_session_sequence in Hs2 as [-> _]. lia.
Qed.

Lemma log_session_consecutive_ids_witness : 2 = 1 + 1.
Proof.
  apply (log_session_consecutive_ids (rt := Reference.runtime)
           Examples.e0 Examples.e0 Examples.s_full Examples.s_full
           (Some Main.API_KEY) (Some Main.API_KEY) Examples.w0
           (snd (Main.log_session (rt := Reference.runtime) Examples.e0
                   Examples.s_full (Some Main.API_KEY) Examples.w0))
           (snd (Main.log_session (rt := Reference.runtime) Examples.e0
                   Examples.s_full (Some Main.API_KEY)
                   (snd (Main.log_session (rt := Reference.runtime) Examples.e0
                           Examples.s_full (Some Main.API_KEY) Examples.w0))))
           1 2); reflexivity.
Defined.

(** ** The other routes *)


(** X23: a session logged and then removed by the id the log request
    returned: the remove request is answered ok, the rows of the table are
    those from before the two requests, the queue keeps what the log
    request left in it, and no listing shows the id again. *)
Theorem log_then_remove {rt : PyRuntime} (e : env) (s : SessionIn.t)
    (w w1 : world) (sid limit : Z) :
  wf (store w) ->
  Main.log_session e s (Some Main.API_KEY) w = (Ok (logged sid), w1) ->
  exists w2,
    Main.remove_session sid (Some Main.API_KEY) w1 = (Ok [("ok", PyBool true)], w2)
    /\ sessions (store w2) = sessions (store w)
    /\ notify_queue w2 = notify_queue w1
    /\ (forall l d, Database.get_sessions limit (store w2) = Ok l ->
                    In d l -> dict_get "id" d <> Some (PyInt sid)).
Proof.
  intros Hwf Hlog.
  apply log_session_ok_inv in Hlog as (x & Hsave & Hx).
  inversion Hx; subst x. unfold store_session in Hsave.
  destruct (save_then_delete_rows _ _ _ _ _ _ _ _ _ _ _ _ Hwf Hsave)
    as [Hdel Hrows].
  unfold Main.remove_session. simpl Main.require_key. cbv iota.
  rewrite Hdel. eexists. split; [reflexivity |]. simpl store.
  split; [exact Hrows |]. split; [reflexivity |].
  intros l d. apply deleted_rows_not_listed.
Qed.

Lemma log_then_remove_witness :
  exists w2,
    Main.remove_session 1 (Some Main.API_KEY)
      (snd (Main.log_session (rt := Reference.runtime) Examples.e0
              Examples.s_full (Some Main.API_KEY) Examples.w0))
    = (Ok [("ok", PyBool true)], w2)
    /\ sessions (store w2) = sessions (store Examples.w0)
    /\ notify_queue w2
       = notify_queue
           (snd (Main.log_session (rt := Reference.runtime) Examples.e0
                   Examples.s_full (Some Main.API_KEY) Examples.w0))
    /\ (forall l d, Database.get_sessions 200 (store w2) = Ok l ->
                    In d l -> dict_get "id" d <> Some (PyInt 1)).
Proof.
  apply (log_then_remove (rt := Reference.runtime) Examples.e0 Examples.s_full
           Examples.w0 _ 1 200 wf_empty eq_refl).
Defined.

(** * The derived date *)

Section DerivedDate.

Lemma string_length_append (s1 s2 : string) :
  String.length (s1 ++ s2) = (String.length s1 + String.length s2)%nat.
Proof. induction s1 as [| ch s1 IH]; simpl; [reflexivity | now rewrite IH]. Qed.

(** From the year 1000 to the year 9999 the parts of the civil date lie in
    their ranges. *)
Lemma civil_from_days_bounds (days : Z) :
  -354285 <= days <= Calendar.max_day ->
  let '(y, m, d) := Calendar.civil_from_days days in
  1000 <= y <= 9999 /\ 1 <= m <= 12 /\ 1 <= d <= 31.
Proof.
  unfold Calendar.max_day, Calendar.civil_from_days. intros H.
  set (z := days + 719468).
  assert (Hz : 365183 <= z <= 3652364) by (subst z; lia).
  clearbody z. clear H days.
  set (era := z / 146097). set (doe := z - era * 146097).
  assert (Hera : 2 <= era <= 24 /\ 0 <= doe <= 146096
                 /\ z = era * 146097 + doe).
  { subst doe era. Z.to_euclidean_division_equations; lia. }
  clearbody doe. clearbody era.
  set (yoe := (doe - doe / 1460 + doe / 36524 - doe / 146096) / 365).
  set (doy := doe - (365 * yoe + yoe / 4 - yoe / 100)).
  assert (Hyoe : 0 <= yoe <= 399 /\ 0 <= doy <= 365
                 /\ (doe <= 146036 -> yoe = 399 -> doy <= 305)
                 /\ (72989 <= doe -> 199 <= yoe /\ (yoe = 199 -> 306 <= doy))).
  { subst doy yoe. Z.to_euclidean_division_equations; lia. }
  clearbody doy. clearbody yoe.
  set (mp := (5 * doy + 2) / 153).
  set (d := doy - (153 * mp + 2) / 5 + 1).
  assert (Hmp : 0 <= mp <= 11 /\ 1 <= d <= 31
                /\ (doy <= 305 -> mp <= 9) /\ (306 <= doy -> 10 <= mp)).
  { subst d mp. Z.to_euclidean_division_equations; lia. }
  clearbody d. clearbody mp.
  destruct (Z.ltb_spec mp 10).
  - destruct (Z.leb_spec (mp + 3) 2); [lia |]. repeat split; lia.
  - destruct (Z.leb_spec (mp - 9) 2); [| lia]. repeat split; lia.
Qed.

Lemma four_digit_years_checked :
  forallb (fun n => Nat.eqb (String.length (Py.int_str (Z.of_nat n))) 4)
          (seq (Z.to_nat 1000) (Z.to_nat 9000)) = true.
Proof. vm_compute. reflexivity. Qed.

Lemma two_digit_padding_checked :
  forallb (fun n => Nat.eqb (String.length
                               (Calendar.zero_pad 2 (Py.int_str (Z.of_nat n)))) 2)
          (seq 0 32) = true.
Proof. vm_compute. reflexivity. Qed.

Lemma year_length (y : Z) :
  1000 <= y <= 9999 -> String.length (Py.int_str y) = 4%nat.
Proof.
  intros Hy. pose proof four_digit_years_checked as H.
  rewrite forallb_forall in H. specialize (H (Z.to_nat y)).
  rewrite Z2Nat.id in H by lia. apply Nat.eqb_eq, H.
  apply in_seq. lia.
Qed.

Lemma two_digit_length (n : Z) :
  1 <= n <= 31 ->
  String.length (Calendar.zero_pad 2 (Py.int_str n)) = 2%nat.
Proof.
  intros Hn. pose proof two_digit_padding_checked as H.
  rewrite forallb_forall in H. specialize (H (Z.to_nat n)).
  rewrite Z2Nat.id in H by lia. apply Nat.eqb_eq, H.
  apply in_seq. lia.
Qed.

End DerivedDate.

(** X24: when [save_session] derives the date of a timestamp from the year
    1000 on, the date stored is the civil UTC day of that timestamp written
    as a four-digit year between 1000 and 9999, a month between 01 and 12
    and a day between 01 and 31, ten characters in all. *)
Theorem derived_date_shape {rt : PyRuntime} c p d t a m ts dt meta
    (db : database) (sid : Z) (db' : database) :
  Database.save_session c p d t a m ts dt meta db = Ok (sid, db') ->
  date_missing dt = true ->
  -30610224000000 <= stored_timestamp c ts ->
  exists r y mo dd,
    sessions db' = (sessions db ++ [r])%list
    /\ Calendar.civil_from_days (stored_timestamp c ts / Calendar.ms_per_day)
       = (y, mo, dd)
    /\ 1000 <= y <= 9999 /\ 1 <= mo <= 12 /\ 1 <= dd <= 31
    /\ Row.date r = Py.int_str y ++ "-" ++ Calendar.zero_pad 2 (Py.int_str mo)
                      ++ "-" ++ Calendar.zero_pad 2 (Py.int_str dd)
    /\ String.length (Row.date r) = 10%nat.
Proof.
  intros Hsave Hmiss Hlow.
  apply save_session_row in Hsave as (day & Hday & Hrows).
  fold (stored_timestamp c ts) in Hday, Hrows.
  assert (Hderived : Calendar.utc_date (stored_timestamp c ts) = Ok day).
  { destruct dt as [x |]; [| exact Hday].
    simpl in Hmiss. apply negb_true_iff in Hmiss. now rewrite Hmiss in Hday. }
  clear Hday. unfold Calendar.utc_date in Hderived.
  set (days := stored_timestamp c ts / Calendar.ms_per_day) in *.
  destruct ((Calendar.min_day <=? days) && (days <=? Calendar.max_day)) eqn:Hr;
    [| discriminate].
  apply andb_prop in Hr as [_ Hmax]. apply Z.leb_le in Hmax.
  assert (Hmin : -354285 <= days).
  { subst days. apply Z.div_le_lower_bound; unfold Calendar.ms_per_day; lia. }
  pose proof (civil_from_days_bounds days (conj Hmin Hmax)) as Hb.
  destruct (Calendar.civil_from_days days) as [[y mo] dd] eqn:Hciv.
  destruct Hb as (Hy & Hmo & Hdd).
  inversion Hderived as [Hstr]. clear Hderived.
  eexists _, y, mo, dd. split; [exact Hrows |].
  split; [reflexivity |].
  assert (Hshape : day = Py.int_str y ++ "-" ++ Calendar.zero_pad 2 (Py.int_str mo)
                           ++ "-" ++ Calendar.zero_pad 2 (Py.int_str dd)).
  { rewrite <- Hstr. reflexivity. }
  repeat split; try lia; simpl Row.date; [exact Hshape |].
  rewrite Hshape, !string_length_append, (year_length y Hy).
  rewrite (two_digit_length mo) by lia. rewrite (two_digit_length dd) by lia.
  reflexivity.
Qed.

Lemma derived_date_shape_witness :
  exists r y mo dd,
    [Row.mk 1 "alpha" None "manual" (1 # 4) None 1709164800000 "2024-02-29"
            None "2025-11-04 00:00:00"] = ([] ++ [r])%list
    /\ Calendar.civil_from_days (1709164800000 / Calendar.ms_per_day)
       = (y, mo, dd)
    /\ 1000 <= y <= 9999 /\ 1 <= mo <= 12 /\ 1 <= dd <= 31
    /\ Row.date r = Py.int_str y ++ "-" ++ Calendar.zero_pad 2 (Py.int_str mo)
                      ++ "-" ++ Calendar.zero_pad 2 (Py.int_str dd)
    /\ String.length (Row.date r) = 10%nat.
Proof.
  apply (derived_date_shape (rt := Reference.runtime) Examples.c0 "alpha" None
           "manual" (1 # 4) None (Some 1709164800000) None None Sql.empty 1
           {| sessions :=
                [Row.mk 1 "alpha" None "manual" (1 # 4) None 1709164800000
                        "2024-02-29" None "2025-11-04 00:00:00"];
              sqlite_sequence := 1 |}
           eq_refl eq_refl).
  vm_compute. discriminate.
Defined.

(** * What the routes keep *)

Section Served.
Context {rt : PyRuntime}.

Lemma logged_task_type_nonempty (s : SessionIn.t) : logged_task_type s <> "".
Proof.
  unfold logged_task_type, Py.or_str.
  destruct (SessionIn.task_type s) as [x |]; [| discriminate].
  destruct x; simpl; discriminate.
Qed.

Lemma log_session_store (e : env) (s : SessionIn.t) (key : option string)
    (w : world) :
  store (snd (Main.log_session e s key w)) = store w
  \/ exists sid db',
       store_session e s (store w) = Ok (sid, db')
       /\ store (snd (Main.log_session e s key w)) = db'.
Proof.
  destruct (key_cases key) as [-> | Hk].
  - rewrite log_session_unfold.
    destruct (store_session e s (store w)) as [[sid db'] | ex]; [| now left].
    right. exists sid, db'. split; [reflexivity |]. simpl.
    destruct (notable s); [| reflexivity].
    destruct (message_for s); [| reflexivity].
    simpl. apply notify_discord_store.
  - left. unfold Main.log_session. now rewrite (require_key_rejects key Hk).
Qed.

End Served.

(** X25: however the routes are called, starting from a fresh table, the
    table keeps ids that increase along the scan and stay at or below the
    AUTOINCREMENT counter, and no stored session has an empty task type. *)
Theorem served_invariant {rt : PyRuntime} (w : world) :
  served w ->
  wf (store w)
  /\ Forall (fun r => Row.task_type r <> "") (sessions (store w)).
Proof.
  induction 1 as [q | e s key w _ IH | limit key w _ IH | sq key w _ IH
                  | sid key w _ IH].
  - split; [exact wf_empty | constructor].
  - destruct IH as [Hwf Htt].
    destruct (log_session_store e s key w) as [-> | (sid & db' & Hsave & ->)];
      [now split |].
    unfold store_session in Hsave. split.
    + exact (save_session_wf _ _ _ _ _ _ _ _ _ _ _ _ Hwf Hsave).
    + apply save_session_row in Hsave as (day & _ & ->).
      apply Forall_app; split; [exact Htt |].
      repeat constructor. simpl. apply logged_task_type_nonempty.
  - unfold Main.list_sessions. now destruct (Main.require_key key).
  - unfold Main.stats. now destruct (Main.require_key key).
  - destruct IH as [Hwf Htt]. unfold Main.remove_session.
    destruct (Main.require_key key); simpl; [| now split].
    destruct (Database.delete_session sid (store w)) as [db' | ex] eqn:Hdel;
      simpl; [| now split].
    split; [exact (delete_session_wf _ _ _ Hwf Hdel) |].
    apply delete_session_inv in Hdel as [_ ->].
    rewrite Forall_forall in *. intros r Hr.
    apply Htt. simpl in Hr. apply filter_In in Hr. tauto.
Qed.

Lemma served_invariant_witness :
  wf (store (snd (Main.log_session (rt := Reference.runtime) Examples.e0
                    Examples.s_zero_hours (Some Main.API_KEY) Examples.w0)))
  /\ Forall (fun r => Row.task_type r <> "")
            (sessions
               (store (snd (Main.log_session (rt := Reference.runtime)
                              Examples.e0 Examples.s_zero_hours
                              (Some Main.API_KEY) Examples.w0)))).
Proof.
  apply (served_invariant (rt := Reference.runtime)).
  apply served_log. exact (served_init "").
Defined.
